(** * Meal builder and CRUD route handlers of the point-of-sale application

    A shallow embedding of
    - the [MealBuilder] component (size requirements, progress, disabling of
      item buttons and of the "Add to Order" button), and
    - the request handlers of [app/api/menu/route.ts] and
      [app/api/transactions/route.ts],
    followed by the properties the specification states about them.

    JavaScript numbers that only ever hold small integers (slot counts, ids,
    HTTP status codes) are kept as [Z]; where the code divides, the division
    is done on binary64 floats ([PrimFloat]), as the engine does it. *)

From Stdlib Require Import ZArith List String Ascii Bool Lia Floats DecimalString.
Import ListNotations.

Set Implicit Arguments.
Set Warnings "-register-all".

Local Open Scope string_scope.
Local Open Scope Z_scope.

(* ================================================================= *)
(** ** JavaScript values *)

Module JS.

(** The binary64 number nearest to an integer (ties to even). *)
Definition ofZ (z : Z) : float :=
  SF2Prim (binary_normalize prec emax z 0 false).

(** Values as [JSON.parse] produces them, plus [undefined]. An object is
    the list of its own properties, each key once; a lookup takes the
    first entry of a key. A string holds the UTF-8 bytes of its text, as
    the query string and the body of a request carry it. *)
Inductive Value : Type :=
| VUndefined
| VNull
| VBool (b : bool)
| VNum (x : float)
| VStr (s : string)
| VArr (items : list Value)
| VObj (props : list (string * Value)).

(** ToBoolean: what [if (v)], [!v] and [v || w] test. *)
Definition truthy (v : Value) : bool :=
  match v with
  | VUndefined | VNull => false
  | VBool b => b
  | VNum x => negb (PrimFloat.eqb x 0 || PrimFloat.is_nan x)
  | VStr s => negb (String.eqb s "")
  | VArr _ | VObj _ => true
  end.

(** [a || b] *)
Definition or_else (a b : Value) : Value := if truthy a then a else b.

Fixpoint assoc (k : string) (props : list (string * Value)) : option Value :=
  match props with
  | [] => None
  | (k', v) :: rest => if String.eqb k' k then Some v else assoc k rest
  end.

(** The key of an array index, ["0"], ["1"], ... *)
Definition indexKey (i : nat) : string :=
  NilEmpty.string_of_uint (Nat.to_uint i).

Fixpoint indexed (A : Type) (i : nat) (xs : list A) : list (string * A) :=
  match xs with
  | [] => []
  | x :: rest => (indexKey i, x) :: indexed (S i) rest
  end.

Fixpoint chars (s : string) : list Value :=
  match s with
  | EmptyString => []
  | String c rest => VStr (String c EmptyString) :: chars rest
  end.

(** The own enumerable properties of a value that is neither [null] nor
    [undefined]: what a rest pattern [{...rest}] copies. *)
Definition ownProps (v : Value) : list (string * Value) :=
  match v with
  | VObj props => props
  | VArr items => indexed 0 items
  | VStr s => indexed 0 (chars s)
  | _ => []
  end.

(** [v.k] for a value that is neither [null] nor [undefined]. Arrays and
    strings have their indices and [length] (those of a string count its
    bytes, which are its characters in ASCII text); no other inherited
    property is modelled (the handlers read none). *)
Definition getProp (v : Value) (k : string) : Value :=
  match v with
  | VObj props =>
      match assoc k props with Some x => x | None => VUndefined end
  | VArr items =>
      if String.eqb k "length" then VNum (ofZ (Z.of_nat (List.length items)))
      else match assoc k (indexed 0 items) with
           | Some x => x | None => VUndefined end
  | VStr s =>
      if String.eqb k "length" then VNum (ofZ (Z.of_nat (String.length s)))
      else match assoc k (indexed 0 (chars s)) with
           | Some x => x | None => VUndefined end
  | _ => VUndefined
  end.

(** A default in a destructuring pattern, [{ k = d }]. *)
Definition withDefault (v d : Value) : Value :=
  match v with VUndefined => d | _ => v end.

(** [v === undefined] *)
Definition isUndefined (v : Value) : bool :=
  match v with VUndefined => true | _ => false end.

(** *** [parseInt(s)] without a radix argument *)

(** [parseInt] skips leading white space and line terminators: U+0009 to
    U+000D and U+0020 (one byte in UTF-8), U+00A0 (two bytes: C2 A0), and
    U+1680, U+2000 to U+200A, U+2028, U+2029, U+202F, U+205F, U+3000 and
    U+FEFF (three bytes: E1 9A 80; E2 80 80 to E2 80 8A; E2 80 A8;
    E2 80 A9; E2 80 AF; E2 81 9F; E3 80 80; EF BB BF). *)
Definition isWhiteSpace (c : ascii) : bool :=
  let n := nat_of_ascii c in
  (n =? 32)%nat || ((9 <=? n)%nat && (n <=? 13)%nat).

Definition isWhiteSpace2 (c1 c2 : ascii) : bool :=
  (nat_of_ascii c1 =? 194)%nat && (nat_of_ascii c2 =? 160)%nat.

Definition isWhiteSpace3 (c1 c2 c3 : ascii) : bool :=
  let n1 := nat_of_ascii c1 in
  let n2 := nat_of_ascii c2 in
  let n3 := nat_of_ascii c3 in
  ((n1 =? 225) && (n2 =? 154) && (n3 =? 128))%nat
  || ((n1 =? 226) && (n2 =? 128)
      && (((128 <=? n3) && (n3 <=? 138)) || (n3 =? 168) || (n3 =? 169)
          || (n3 =? 175)))%nat
  || ((n1 =? 226) && (n2 =? 129) && (n3 =? 159))%nat
  || ((n1 =? 227) && (n2 =? 128) && (n3 =? 128))%nat
  || ((n1 =? 239) && (n2 =? 187) && (n3 =? 191))%nat.

Fixpoint trimStart (s : string) : string :=
  match s with
  | String c1 rest1 =>
      if isWhiteSpace c1 then trimStart rest1
      else
        match rest1 with
        | String c2 rest2 =>
            if isWhiteSpace2 c1 c2 then trimStart rest2
            else
              match rest2 with
              | String c3 rest3 =>
                  if isWhiteSpace3 c1 c2 c3 then trimStart rest3 else s
              | EmptyString => s
              end
        | EmptyString => s
        end
  | EmptyString => s
  end.

Definition digitValue (c : ascii) : option Z :=
  let n := Z.of_nat (nat_of_ascii c) in
  if (48 <=? n) && (n <=? 57) then Some (n - 48)
  else if (97 <=? n) && (n <=? 122) then Some (n - 87)
  else if (65 <=? n) && (n <=? 90) then Some (n - 55)
  else None.

(** The longest prefix of digits below the radix, as a number; [acc] is
    [None] until a first digit is read. *)
Fixpoint digits (radix : Z) (s : string) (acc : option Z) : option Z :=
  match s with
  | String c rest =>
      match digitValue c with
      | Some d =>
          if d <? radix
          then digits radix rest
                 (Some (match acc with Some a => a * radix + d | None => d end))
          else acc
      | None => acc
      end
  | EmptyString => acc
  end.

(** Sign and magnitude, or [None] for NaN. *)
Definition parseIntZ (s : string) : option (bool * Z) :=
  let s := trimStart s in
  let '(neg, s) :=
    match s with
    | String "-" rest => (true, rest)
    | String "+" rest => (false, rest)
    | _ => (false, s)
    end in
  let '(radix, s) :=
    match s with
    | String "0" (String "x" rest) => (16, rest)
    | String "0" (String "X" rest) => (16, rest)
    | _ => (10, s)
    end in
  match digits radix s None with
  | Some m => Some (neg, m)
  | None => None
  end.

Definition parseInt (s : string) : float :=
  match parseIntZ s with
  | Some (neg, m) =>
      SF2Prim (binary_normalize prec emax (if neg then - m else m) 0 neg)
  | None => PrimFloat.nan
  end.

Definition isNaN (x : float) : bool := PrimFloat.is_nan x.

End JS.

(* ================================================================= *)
(** ** The types of [@/types] used by the meal builder *)

Module Types.

(** Modelled from the spec: the declaration of [MenuItem] in [@/types] is
    not part of the sources; the data model gives its fields as id,
    item_type (side/entree), name, price, premium flag and ingredients. *)
Record MenuItem : Type := {
  id : Z;
  item_type : string;
  name : string;
  price : float;
  premium : bool;
  ingredients : list string
}.

(** Modelled from the spec: the declaration of [MealInProgress] in
    [@/types] is not part of the sources; the data model gives it up to
    two side slots and up to three entree slots, and the component tests
    each slot against [null]. *)
Record MealInProgress : Type := {
  side1 : option MenuItem;
  side2 : option MenuItem;
  entree1 : option MenuItem;
  entree2 : option MenuItem;
  entree3 : option MenuItem
}.

(** Modelled from the spec: the declaration of [SizeEnum] in [@/types] is
    not part of the sources; the spec gives its values as bowl, plate and
    bigger plate. At run time a size is the string the component compares
    against, so the component below takes a string. *)
Inductive SizeEnum : Type := bowl | plate | bigger_plate.

Definition sizeString (sz : SizeEnum) : string :=
  match sz with
  | bowl => "bowl"
  | plate => "plate"
  | bigger_plate => "bigger plate"
  end.

End Types.

(* ================================================================= *)
(** ** The [MealBuilder] component *)

Module MealBuilder.
Import Types.

Record Requirements : Type := { sides : Z; entrees : Z }.

Section Component.
(** The props the helpers close over. *)
Variable size : string.
Variable meal : MealInProgress.

Definition getMealRequirements : Requirements :=
  if String.eqb size "bowl" then {| sides := 1; entrees := 1 |}
  else if String.eqb size "plate" then {| sides := 1; entrees := 2 |}
  else if String.eqb size "bigger plate" then {| sides := 2; entrees := 3 |}
  else {| sides := 1; entrees := 1 |}.

(** [if (slot) filled++] *)
Definition countIf (slot : option MenuItem) (filled : Z) : Z :=
  match slot with Some _ => filled + 1 | None => filled end.

(** The value of [filled] when [getProgress] reaches its [return]. *)
Definition filledSlots : Z :=
  let requirements := getMealRequirements in
  let filled := 0 in
  let filled :=
    if sides requirements =? 1 then countIf (side1 meal) filled
    else countIf (side2 meal) (countIf (side1 meal) filled) in
  let filled := countIf (entree1 meal) filled in
  let filled :=
    if 2 <=? entrees requirements then countIf (entree2 meal) filled
    else filled in
  let filled :=
    if 3 <=? entrees requirements then countIf (entree3 meal) filled
    else filled in
  filled.

Definition getProgress : float :=
  let requirements := getMealRequirements in
  let total := sides requirements + entrees requirements in
  (JS.ofZ filledSlots / JS.ofZ total * 100)%float.

(** [a.id !== b.id] *)
Definition otherThan (item : MenuItem) (a : MenuItem) : bool :=
  negb (id a =? id item).

Definition isSideDisabled (item : MenuItem) : bool :=
  let requirements := getMealRequirements in
  if sides requirements =? 1 then
    match side1 meal with
    | Some s1 => otherThan item s1
    | None => false
    end
  else
    match side1 meal, side2 meal with
    | Some s1, Some s2 => otherThan item s1 && otherThan item s2
    | _, _ => false
    end.

Definition isEntreeDisabled (item : MenuItem) : bool :=
  if String.eqb size "bowl" then
    match entree1 meal with
    | Some e1 => otherThan item e1
    | None => false
    end
  else if String.eqb size "plate" then
    match entree1 meal, entree2 meal with
    | Some e1, Some e2 => otherThan item e1 && otherThan item e2
    | _, _ => false
    end
  else
    match entree1 meal, entree2 meal, entree3 meal with
    | Some e1, Some e2, Some e3 =>
        otherThan item e1 && otherThan item e2 && otherThan item e3
    | _, _, _ => false
    end.

(** The [disabled] prop of the button the two lists render for a menu
    item: the side list keeps the items of type ['side'], the entree list
    those of type ['entree']; an item of another type has no button. *)
Definition selectionDisabled (item : MenuItem) : option bool :=
  if String.eqb (item_type item) "side" then Some (isSideDisabled item)
  else if String.eqb (item_type item) "entree"
       then Some (isEntreeDisabled item)
       else None.

(** The [disabled] prop of the "Add to Order" button. *)
Definition addToOrderDisabled : bool :=
  PrimFloat.ltb getProgress 100.

End Component.

(** *** The rule as the specification words it *)

Inductive Category : Type := Side | Entree.

Definition category (item : MenuItem) : option Category :=
  if String.eqb (item_type item) "side" then Some Side
  else if String.eqb (item_type item) "entree" then Some Entree
  else None.

(** Required (sides, entrees) per size, as the specification lists them. *)
Definition required (sz : SizeEnum) : Z * Z :=
  match sz with
  | bowl => (1, 1)
  | plate => (1, 2)
  | bigger_plate => (2, 3)
  end.

(** The slots of a category a size requires: the first [sides] side slots,
    the first [entrees] entree slots. *)
Definition requiredSlots (size : string) (c : Category)
    (meal : MealInProgress) : list (option MenuItem) :=
  let r := getMealRequirements size in
  match c with
  | Side => firstn (Z.to_nat (sides r)) [side1 meal; side2 meal]
  | Entree =>
      firstn (Z.to_nat (entrees r)) [entree1 meal; entree2 meal; entree3 meal]
  end.

Definition allRequiredSlots (size : string) (meal : MealInProgress)
    : list (option MenuItem) :=
  requiredSlots size Side meal ++ requiredSlots size Entree meal.

Definition filled (slot : option MenuItem) : Prop := slot <> None.

Definition isFilled (slot : option MenuItem) : bool :=
  match slot with Some _ => true | None => false end.

Definition occupiedBy (item : MenuItem) (slot : option MenuItem) : Prop :=
  exists m, slot = Some m /\ id m = id item.

(** filled / total x 100 over the required slots. *)
Definition progressOf (slots : list (option MenuItem)) : float :=
  (JS.ofZ (Z.of_nat (List.length (filter isFilled slots)))
   / JS.ofZ (Z.of_nat (List.length slots)) * 100)%float.

(** The meal with every slot beyond the size's quota emptied. *)
Definition withinQuota (size : string) (meal : MealInProgress)
    : MealInProgress :=
  let r := getMealRequirements size in
  {| side1 := side1 meal;
     side2 := if 2 <=? sides r then side2 meal else None;
     entree1 := entree1 meal;
     entree2 := if 2 <=? entrees r then entree2 meal else None;
     entree3 := if 3 <=? entrees r then entree3 meal else None |}.

(** Every slot of the list holds an item other than [item]. *)
Definition blockedBy (item : MenuItem) (slots : list (option MenuItem))
    : bool :=
  forallb (fun slot => match slot with
                       | Some m => otherThan item m
                       | None => false
                       end) slots.

(** A menu item to evaluate the component on. *)
Definition item (i : Z) (type : string) : MenuItem :=
  {| id := i; item_type := type; name := "item"; price := 5.25;
     premium := false; ingredients := [] |}.

End MealBuilder.

(* ================================================================= *)
(** ** Request handlers: effects *)

Module Handler.
Import JS.

(** What an [await] or a statement ends in. *)
Inductive Outcome (A : Type) : Type :=
| Returned (a : A)
| Thrown (error : Value).
Arguments Thrown {A} error.

(** The functions the routes import from [@/lib/menu] and
    [@/lib/transactions], with their arguments. Those modules are not part
    of the sources: the handlers are run against any data layer. *)
Inductive Call : Type :=
| getAllMenuItems
| getMenuItemById (id : float)
| addMenuItem (item_type name price premium ingredients : Value)
| updateMenuItem (id updates ingredients : Value)
| deleteMenuItem (id : float)
| getTransactions
| getTransactionDetails (id : float)
| addTransaction (transaction : Value).

(** A response: its status, and the data its body is the JSON text of. *)
Record Response : Type := { status : Z; body : Value }.

(** The response [NextResponse.json(data, { status })] returns for data
    that has a JSON text. *)
Definition NextResponse_json (data : Value) (status : Z) : Response :=
  {| status := status; body := data |}.

(** Status of [NextResponse.json(body)] without an init argument. *)
Definition OK : Z := 200.

(** A request: the query string as [new URL(request.url).searchParams]
    holds it, and what [await request.json()] ends in. *)
Record Request : Type := {
  searchParams : list (string * string);
  json : Outcome Value
}.

(** [searchParams.get(name)]: the first value of the name, or [null]. *)
Fixpoint searchParams_get (params : list (string * string)) (name : string)
    : option string :=
  match params with
  | [] => None
  | (k, v) :: rest =>
      if String.eqb k name then Some v else searchParams_get rest name
  end.

(** A TypeError (its message depends on the engine and is left out): of
    destructuring [null] or [undefined], and of serialising
    [undefined]. *)
Definition TypeError : Value :=
  VObj [("name", VStr "TypeError")].

Section Monad.
Variable World : Type.

(** The state a handler runs in: the data layer's state, the calls made
    to it with what each ended in (oldest first), and the console. *)
Record State : Type := {
  world : World;
  calls : list (Call * Outcome Value);
  console : list (list Value)
}.

Definition M (A : Type) : Type := State -> Outcome A * State.

Definition ret (A : Type) (a : A) : M A := fun st => (Returned a, st).

Definition throw (A : Type) (e : Value) : M A := fun st => (Thrown e, st).

Definition bind (A B : Type) (m : M A) (k : A -> M B) : M B :=
  fun st =>
    match m st with
    | (Returned a, st') => k a st'
    | (Thrown e, st') => (Thrown e, st')
    end.

(** [try { m } catch (error) { h error }] *)
Definition tryCatch (A : Type) (m : M A) (h : Value -> M A) : M A :=
  fun st =>
    match m st with
    | (Returned a, st') => (Returned a, st')
    | (Thrown e, st') => h e st'
    end.

Definition liftOutcome (A : Type) (o : Outcome A) : M A :=
  fun st => (o, st).

(** [console.error(...args)] *)
Definition console_error (args : list Value) : M unit :=
  fun st =>
    (Returned tt,
     {| world := world st;
        calls := calls st;
        console := console st ++ [args] |}).

(** The object pattern [const { ... } = v] reads properties of [v]; it
    throws on [null] and [undefined]. *)
Definition destructure (v : Value) : M unit :=
  match v with
  | VNull | VUndefined => throw unit TypeError
  | _ => ret tt
  end.

Variable dataLayer : Call -> World -> Outcome Value * World.

(** [await f(args)] for a function [f] of the data layer. *)
Definition await (c : Call) : M Value :=
  fun st =>
    let '(o, w) := dataLayer c (world st) in
    (o, {| world := w;
           calls := calls st ++ [(c, o)];
           console := console st |}).

End Monad.

Arguments ret {World A} a.
Arguments throw {World A} e.
Arguments bind {World A B} m k.
Arguments tryCatch {World A} m h.
Arguments liftOutcome {World A} o.
Arguments console_error {World} args.
Arguments destructure {World} v.
Arguments await {World} dataLayer c.

Module NextResponse.

(** [NextResponse.json(data, { status })]. It serialises the data on the
    spot: [undefined] has no JSON text, and the call throws a TypeError.
    Every other value here has one. *)
Definition json (World : Type) (data : Value) (status : Z)
    : M World Response :=
  match data with
  | VUndefined => throw TypeError
  | _ => ret (NextResponse_json data status)
  end.
Arguments json {World} data status.

End NextResponse.

Notation "x <- m ;; k" := (bind m (fun x => k))
  (at level 61, m at next level, right associativity).
Notation "m ;;; k" := (bind m (fun _ => k))
  (at level 61, right associativity).

End Handler.

(* ================================================================= *)
(** ** [app/api/menu/route.ts] *)

Module MenuRoute.
Import JS Handler.

Section Route.
Variable World : Type.
Variable dataLayer : Call -> World -> Outcome Value * World.

Local Abbreviation M := (M World).
Local Abbreviation await := (await dataLayer).

Definition error_ (message : string) : Value :=
  VObj [("error", VStr message)].

(** GET: all menu items, or one by id. *)
Definition GET (request : Request) : M Response :=
  let id := searchParams_get (searchParams request) "id" in
  let all : M Response :=
    menuItems <- await getAllMenuItems ;;
    NextResponse.json menuItems OK in
  tryCatch
    (match id with
     | Some s =>
         if String.eqb s "" then all
         else
           menuItem <- await (getMenuItemById (parseInt s)) ;;
           if negb (truthy menuItem)
           then NextResponse.json (error_ "Menu item not found.") 404
           else NextResponse.json menuItem OK
     | None => all
     end)
    (fun error =>
       console_error [VStr "Error fetching menu items:"; error] ;;;
       NextResponse.json (error_ "Failed to fetch menu items.") 500).

(** POST: adds a menu item with its ingredients. *)
Definition POST (request : Request) : M Response :=
  tryCatch
    (body <- liftOutcome (json request) ;;
     destructure body ;;;
     let item_type := getProp body "item_type" in
     let name := getProp body "name" in
     let price := getProp body "price" in
     let premium := getProp body "premium" in
     let ingredients :=
       withDefault (getProp body "ingredients") (VArr []) in
     if negb (truthy item_type) || negb (truthy name)
        || isUndefined price || isUndefined premium
     then NextResponse.json
            (error_ "Invalid input. All fields are required.") 400
     else
       newItem <- await (addMenuItem item_type name price premium
                           ingredients) ;;
       NextResponse.json newItem 201)
    (fun error =>
       console_error [VStr "Error adding menu item:"; error] ;;;
       NextResponse.json (error_ "Failed to add menu item.") 500).

(** The rest of [{ id, ingredents, ...updates }]. *)
Definition restOf (body : Value) : Value :=
  VObj (filter
          (fun kv => negb (String.eqb (fst kv) "id"
                           || String.eqb (fst kv) "ingredents"))
          (ownProps body)).

(** PUT: updates a menu item with its ingredients. *)
Definition PUT (request : Request) : M Response :=
  tryCatch
    (body <- liftOutcome (json request) ;;
     destructure body ;;;
     let id := getProp body "id" in
     let updates := restOf body in
     if negb (truthy id)
     then NextResponse.json
            (error_ "ID is required to update the menu item.") 400
     else
       updatedItem <-
         await (updateMenuItem id updates
                  (or_else (getProp updates "ingredients") (VArr []))) ;;
       if negb (truthy updatedItem)
       then NextResponse.json (error_ "Menu item not found.") 404
       else NextResponse.json updatedItem OK)
    (fun error =>
       console_error [VStr "Error updating menu item:"; error] ;;;
       NextResponse.json (error_ "Failed to update menu item.") 500).

(** DELETE: deletes a menu item by id. *)
Definition DELETE (request : Request) : M Response :=
  let id := searchParams_get (searchParams request) "id" in
  let invalid : M Response :=
    NextResponse.json (error_ "Invalid or missing menu item ID.") 400 in
  match id with
  | Some s =>
      if String.eqb s "" || isNaN (parseInt s) then invalid
      else
        tryCatch
          (await (deleteMenuItem (parseInt s)) ;;;
           NextResponse.json
             (VObj [("message", VStr "Menu item deleted successfully.")])
             OK)
          (fun error =>
             console_error [VStr "Error deleting menu item:"; error] ;;;
             NextResponse.json (error_ "Failed to delete menu item.") 500)
  | None => invalid
  end.

End Route.

End MenuRoute.

(* ================================================================= *)
(** ** [app/api/transactions/route.ts] *)

Module TransactionsRoute.
Import JS Handler.

Section Route.
Variable World : Type.
Variable dataLayer : Call -> World -> Outcome Value * World.

(** The built-in conversion [Number(v)], left open. *)
Variable Number_ : Value -> float.

Local Abbreviation M := (M World).
Local Abbreviation await := (await dataLayer).

(** GET: all transactions, or one by id. *)
Definition GET (request : Request) : M Response :=
  tryCatch
    (let id := searchParams_get (searchParams request) "id" in
     let all : M Response :=
       transactions <- await getTransactions ;;
       NextResponse.json transactions OK in
     match id with
     | Some s =>
         if String.eqb s "" then all
         else
           transaction <- await (getTransactionDetails (parseInt s)) ;;
           if negb (truthy transaction)
           then NextResponse.json
                  (VObj [("error", VStr "Transaction not found")]) 404
           else NextResponse.json transaction OK
     | None => all
     end)
    (fun error =>
       console_error [VStr "Error in transactions GET route:"; error] ;;;
       NextResponse.json
         (VObj [("error", VStr "Failed to fetch transactions");
                ("details", error)])
         500).

(** POST: adds a transaction. *)
Definition POST (request : Request) : M Response :=
  tryCatch
    (body <- liftOutcome (json request) ;;
     destructure body ;;;
     let customerName := getProp body "customerName" in
     let cashierName := getProp body "cashierName" in
     let salePrice := getProp body "salePrice" in
     let items := withDefault (getProp body "items") (VNum 0) in
     let meals := withDefault (getProp body "meals") (VNum 0) in
     let appetizers := withDefault (getProp body "appetizers") (VNum 0) in
     let drinks := withDefault (getProp body "drinks") (VNum 0) in
     if negb (truthy customerName) || negb (truthy cashierName)
        || isUndefined salePrice
     then NextResponse.json
            (VObj [("error", VStr "Missing required fields")]) 400
     else
       newTransaction <-
         await (addTransaction
                  (VObj [("customerName", customerName);
                         ("cashierName", cashierName);
                         ("salePrice", VNum (Number_ salePrice));
                         ("items", items);
                         ("meals", meals);
                         ("appetizers", appetizers);
                         ("drinks", drinks)])) ;;
       NextResponse.json newTransaction OK)
    (fun error =>
       console_error [VStr "Error in transactions POST route:"; error] ;;;
       NextResponse.json
         (VObj [("error", VStr "Failed to create transaction");
                ("details", error)])
         500).

End Route.

End TransactionsRoute.

(* ================================================================= *)
(** ** The two routes together *)

Module Routes.
Import JS Handler.

(** The six handlers of the two route files. *)
Inductive Endpoint : Type :=
| MenuGET | MenuPOST | MenuPUT | MenuDELETE
| TransactionsGET | TransactionsPOST.

Definition handle (World : Type)
    (dataLayer : Call -> World -> Outcome Value * World)
    (Number_ : Value -> float) (ep : Endpoint)
    : Request -> M World Response :=
  match ep with
  | MenuGET => MenuRoute.GET dataLayer
  | MenuPOST => MenuRoute.POST dataLayer
  | MenuPUT => MenuRoute.PUT dataLayer
  | MenuDELETE => MenuRoute.DELETE dataLayer
  | TransactionsGET => TransactionsRoute.GET dataLayer
  | TransactionsPOST => TransactionsRoute.POST dataLayer Number_
  end.

Definition inTransactions (ep : Endpoint) : bool :=
  match ep with
  | TransactionsGET | TransactionsPOST => true
  | _ => false
  end.

(** The response of a run, and the calls it made to the data layer with
    what each ended in. *)
Definition response (World A : Type) (m : M World A) (st : State World)
    : Outcome A :=
  fst (m st).

Definition made (World A : Type) (m : M World A) (st : State World)
    : list (Call * Outcome Value) :=
  skipn (List.length (calls st)) (calls (snd (m st))).

(** A body that has fields (it is not [null]) and lacks the field [k]. *)
Definition lacks (body : Value) (k : string) : Prop :=
  body <> VNull /\ body <> VUndefined /\ getProp body k = VUndefined.

(** A body the validation of the menu POST lets through. *)
Definition validMenuItem (body : Value) : Prop :=
  body <> VNull /\ body <> VUndefined
  /\ truthy (getProp body "item_type") = true
  /\ truthy (getProp body "name") = true
  /\ getProp body "price" <> VUndefined
  /\ getProp body "premium" <> VUndefined.

(** A body the validation of the transactions POST lets through. *)
Definition validTransaction (body : Value) : Prop :=
  body <> VNull /\ body <> VUndefined
  /\ truthy (getProp body "customerName") = true
  /\ truthy (getProp body "cashierName") = true
  /\ getProp body "salePrice" <> VUndefined.

(** The transaction the POST handler hands to [addTransaction]. *)
Definition transactionOf (Number_ : Value -> float) (body : Value) : Value :=
  VObj [("customerName", getProp body "customerName");
        ("cashierName", getProp body "cashierName");
        ("salePrice", VNum (Number_ (getProp body "salePrice")));
        ("items", withDefault (getProp body "items") (VNum 0));
        ("meals", withDefault (getProp body "meals") (VNum 0));
        ("appetizers", withDefault (getProp body "appetizers") (VNum 0));
        ("drinks", withDefault (getProp body "drinks") (VNum 0))].

(** The error is a property of the response body. *)
Definition embeds (error body : Value) : Prop :=
  exists k, getProp body k = error.

(** A computation only adds to the record of calls, and when one of the
    calls it made threw, it ends by throwing that error itself. *)
Definition Faithful (World A : Type) (m : M World A) : Prop :=
  forall st, exists l,
    calls (snd (m st)) = (calls st ++ l)%list
    /\ forall c e, In (c, Thrown e) l -> fst (m st) = Thrown e.

(** *** Data layers to run the handlers against *)

(** Records in memory, each under its numeric id. *)
Definition Table : Type := list (Z * Value).

Definition lookup (x : float) (t : Table) : Value :=
  match find (fun row => PrimFloat.eqb (ofZ (fst row)) x) t with
  | Some row => snd row
  | None => VNull
  end.

Definition nextId (t : Table) : Z :=
  1 + fold_right (fun row m => Z.max (fst row) m) 0 t.

Definition memoryLayer (c : Call) (t : Table) : Outcome Value * Table :=
  match c with
  | getAllMenuItems | getTransactions => (Returned (VArr (map snd t)), t)
  | getMenuItemById x | getTransactionDetails x => (Returned (lookup x t), t)
  | addMenuItem item_type name price premium ingredients =>
      let record :=
        VObj [("id", VNum (ofZ (nextId t))); ("item_type", item_type);
              ("name", name); ("price", price); ("premium", premium);
              ("ingredients", ingredients)] in
      (Returned record, (t ++ [(nextId t, record)])%list)
  | addTransaction transaction =>
      let record :=
        VObj (("id", VNum (ofZ (nextId t))) :: ownProps transaction) in
      (Returned record, (t ++ [(nextId t, record)])%list)
  | updateMenuItem id updates _ =>
      match id with
      | VNum x =>
          match lookup x t with
          | VNull => (Returned VNull, t)
          | _ =>
              (Returned updates,
               map (fun row => if PrimFloat.eqb (ofZ (fst row)) x
                               then (fst row, updates) else row) t)
          end
      | _ => (Returned VNull, t)
      end
  | deleteMenuItem x =>
      (Returned VUndefined,
       filter (fun row => negb (PrimFloat.eqb (ofZ (fst row)) x)) t)
  end.

(** A data layer whose every call fails with the same error. *)
Definition failingLayer (error : Value) (c : Call) (w : unit)
    : Outcome Value * unit :=
  (Thrown error, w).

(** A data layer whose every call resolves to [undefined]. *)
Definition silentLayer (c : Call) (w : unit) : Outcome Value * unit :=
  (Returned VUndefined, w).

Definition start (World : Type) (w : World) : State World :=
  {| world := w; calls := []; console := [] |}.

Definition friedRice : Value :=
  VObj [("id", VNum 7); ("item_type", VStr "side");
        ("name", VStr "Fried Rice"); ("price", VNum 4.5);
        ("premium", VBool false)].

Definition menu : Table := [(7, friedRice)].

Definition lunch : Value :=
  VObj [("id", VNum 7); ("customerName", VStr "Cy");
        ("cashierName", VStr "Bo"); ("salePrice", VNum 9.5)].

Definition sales : Table := [(7, lunch)].

Definition query (id : string) : Request :=
  {| searchParams := [("id", id)]; json := Thrown TypeError |}.

Definition noQuery : Request :=
  {| searchParams := []; json := Thrown TypeError |}.

Definition post (body : Value) : Request :=
  {| searchParams := []; json := Returned body |}.

Definition newSide : Value :=
  VObj [("item_type", VStr "side"); ("name", VStr "Chow Mein");
        ("price", VNum 4.5); ("premium", VBool false)].

Definition sale : Value :=
  VObj [("customerName", VStr "Ann"); ("cashierName", VStr "Bo");
        ("salePrice", VNum 12.5); ("meals", VNum 1)].

(** The id [7] after a no-break space (U+00A0), as [?id=%C2%A07] sends
    it. *)
Definition spaced7 : string :=
  String (ascii_of_nat 194) (String (ascii_of_nat 160) "7").

Definition connectionLost : Value :=
  VObj [("message", VStr "connection lost")].

(** [Number(v)] on the values the examples use. *)
Definition numberOf (v : Value) : float :=
  match v with
  | VNum x => x
  | VBool true => 1
  | VBool false | VNull => 0
  | _ => PrimFloat.nan
  end.

End Routes.

(* ================================================================= *)
(** ** The [MealBuilder] component: what it renders *)

Module MealBuilderView.
Import Types MealBuilder.

(** A button of one of the two item lists. *)
Record ItemButton : Type := {
  key : Z;
  variant : string;
  onClick : MenuItem;
  disabled : bool
}.

Section Component.
Variable size : string.
Variable meal : MealInProgress.
Variable menuItems : list MenuItem.

(** [if (!slot) remaining.push(label)] *)
Definition pushUnless (slot : option MenuItem) (label : string)
    (remaining : list string) : list string :=
  match slot with
  | None => remaining ++ [label]
  | Some _ => remaining
  end.

Definition getRequiredItems : list string :=
  let requirements := getMealRequirements size in
  let remaining := [] in
  let remaining :=
    if sides requirements =? 1
    then pushUnless (side1 meal) "side" remaining
    else pushUnless (side2 meal) "second side"
           (pushUnless (side1 meal) "first side" remaining) in
  let remaining := pushUnless (entree1 meal) "first entrée" remaining in
  let remaining :=
    if 2 <=? entrees requirements
    then pushUnless (entree2 meal) "second entrée" remaining
    else remaining in
  let remaining :=
    if 3 <=? entrees requirements
    then pushUnless (entree3 meal) "third entrée" remaining
    else remaining in
  remaining.

(** A small integer as a template literal prints it. *)
Definition numeral (n : Z) : string := NilZero.string_of_int (Z.to_int n).

Definition getMealDescription : string :=
  let requirements := getMealRequirements size in
  size ++ " (" ++ numeral (sides requirements) ++ " side"
    ++ (if 1 <? sides requirements then "s" else "") ++ ", "
    ++ numeral (entrees requirements) ++ " entrée"
    ++ (if 1 <? entrees requirements then "s" else "") ++ ")".

(** The alert under the progress bar, when there is one. *)
Definition alert : option string :=
  if (0 <? List.length getRequiredItems)%nat
  then Some ("Please select your " ++ String.concat ", " getRequiredItems)
  else None.

(** [slot?.id === item.id] *)
Definition holds (slot : option MenuItem) (item : MenuItem) : bool :=
  match slot with
  | Some m => id m =? id item
  | None => false
  end.

Definition sideVariant (item : MenuItem) : string :=
  if holds (side1 meal) item || holds (side2 meal) item
  then "default" else "outline".

Definition entreeVariant (item : MenuItem) : string :=
  if holds (entree1 meal) item || holds (entree2 meal) item
     || holds (entree3 meal) item
  then "default" else "outline".

(** The buttons of the "Sides" card. *)
Definition sideButtons : list ItemButton :=
  map (fun item =>
         {| key := id item;
            variant := sideVariant item;
            onClick := item;
            disabled := isSideDisabled size meal item |})
      (filter (fun item => String.eqb (item_type item) "side") menuItems).

(** The buttons of the entree card. *)
Definition entreeButtons : list ItemButton :=
  map (fun item =>
         {| key := id item;
            variant := entreeVariant item;
            onClick := item;
            disabled := isEntreeDisabled size meal item |})
      (filter (fun item => String.eqb (item_type item) "entree") menuItems).

(** [{slot && <div>label: {slot.name}</div>}] *)
Definition line (label : string) (slot : option MenuItem) : list string :=
  match slot with
  | Some m => [label ++ ": " ++ name m]
  | None => []
  end.

(** The lines beside the "Add to Order" button. *)
Definition summary : list string :=
  line "Side 1" (side1 meal) ++ line "Side 2" (side2 meal)
  ++ line "Entrée 1" (entree1 meal) ++ line "Entrée 2" (entree2 meal)
  ++ line "Entrée 3" (entree3 meal).

End Component.

End MealBuilderView.

(* ================================================================= *)
(** ** The shape of a handler run *)

Module Runs.
Import JS Handler Routes.

(** The data-layer functions each handler may call. *)
Definition ownCall (ep : Endpoint) (c : Call) : bool :=
  match ep, c with
  | MenuGET, getAllMenuItems
  | MenuGET, getMenuItemById _
  | MenuPOST, addMenuItem _ _ _ _ _
  | MenuPUT, updateMenuItem _ _ _
  | MenuDELETE, deleteMenuItem _
  | TransactionsGET, getTransactions
  | TransactionsGET, getTransactionDetails _
  | TransactionsPOST, addTransaction _ => true
  | _, _ => false
  end.

(** The calls that only read. *)
Definition readOnly (c : Call) : bool :=
  match c with
  | getAllMenuItems | getMenuItemById _
  | getTransactions | getTransactionDetails _ => true
  | _ => false
  end.

(** The statuses a handler answers with after its call has returned. *)
Definition answers (ep : Endpoint) : list Z :=
  match ep with
  | MenuGET | MenuPUT | TransactionsGET => [200; 404]
  | MenuPOST => [201]
  | MenuDELETE | TransactionsPOST => [200]
  end.

(** The handlers that validate their input. *)
Definition validates (ep : Endpoint) : bool :=
  match ep with
  | MenuGET | TransactionsGET => false
  | _ => true
  end.

(** The handlers that read the request body. *)
Definition readsBody (ep : Endpoint) : bool :=
  match ep with
  | MenuPOST | MenuPUT | TransactionsPOST => true
  | _ => false
  end.

(** The state after one more line on the console. *)
Definition logged (World : Type) (st : State World) (line : list Value)
    : State World :=
  {| world := world st; calls := calls st;
     console := console st ++ [line] |}.

(** The state after a call that left the data layer in [w]. *)
Definition called (World : Type) (st : State World) (c : Call)
    (o : Outcome Value) (w : World) : State World :=
  {| world := w; calls := calls st ++ [(c, o)]; console := console st |}.

(** The 500 answer of a handler. *)
Definition answer500 (ep : Endpoint) (message : string) (e : Value)
    : Response :=
  NextResponse_json
    (VObj (("error", VStr message)
           :: (if inTransactions ep then [("details", e)] else [])))
    500.

(** The message of each handler's 500 answer, and the label of its log
    line. *)
Definition failureText (ep : Endpoint) : string :=
  match ep with
  | MenuGET => "Failed to fetch menu items."
  | MenuPOST => "Failed to add menu item."
  | MenuPUT => "Failed to update menu item."
  | MenuDELETE => "Failed to delete menu item."
  | TransactionsGET => "Failed to fetch transactions"
  | TransactionsPOST => "Failed to create transaction"
  end.

Definition logLabel (ep : Endpoint) : string :=
  match ep with
  | MenuGET => "Error fetching menu items:"
  | MenuPOST => "Error adding menu item:"
  | MenuPUT => "Error updating menu item:"
  | MenuDELETE => "Error deleting menu item:"
  | TransactionsGET => "Error in transactions GET route:"
  | TransactionsPOST => "Error in transactions POST route:"
  end.

(** The calls whose result goes to [NextResponse.json] untested: the two
    list functions and the two that add a record. *)
Definition sentAsIs (c : Call) : bool :=
  match c with
  | getAllMenuItems | getTransactions
  | addMenuItem _ _ _ _ _ | addTransaction _ => true
  | _ => false
  end.

(** Reading the body of the request fails with [e]: [request.json()]
    rejects with it, or the body has no fields to destructure. *)
Definition unreadable (request : Request) (e : Value) : Prop :=
  json request = Thrown e
  \/ ((json request = Returned VNull \/ json request = Returned VUndefined)
      /\ e = TypeError).

(** The error the [catch] block of a handler receives, given the calls
    the run made: the error the call threw; the TypeError of serialising
    the [undefined] a call returned; or, without a call, the error of
    reading the body. *)
Definition caught (ep : Endpoint) (request : Request)
    (madeCalls : list (Call * Outcome Value)) (e : Value) : Prop :=
  match madeCalls with
  | [] => readsBody ep = true /\ unreadable request e
  | [(c, Thrown e')] => e = e'
  | [(c, Returned v)] => sentAsIs c = true /\ v = VUndefined /\ e = TypeError
  | _ => False
  end.

(** The five ways a handler run ends: the input is rejected; reading the
    body fails; the one call returns and the handler answers; the one call
    returns [undefined], which cannot be sent; the one call throws. *)
Inductive Run (World : Type)
    (dataLayer : Call -> World -> Outcome Value * World)
    (ep : Endpoint) (request : Request) (st : State World)
    : Outcome Response * State World -> Prop :=
| run_rejected (r : Response) :
    validates ep = true -> status r = 400 ->
    Run dataLayer ep request st (Returned r, st)
| run_unreadable (e : Value) :
    readsBody ep = true ->
    unreadable request e ->
    Run dataLayer ep request st
      (Returned (answer500 ep (failureText ep) e),
       logged st [VStr (logLabel ep); e])
| run_answered (c : Call) (v : Value) (w : World) (r : Response) :
    dataLayer c (world st) = (Returned v, w) ->
    ownCall ep c = true ->
    In (status r) (answers ep) ->
    (sentAsIs c = true -> v <> VUndefined) ->
    Run dataLayer ep request st (Returned r, called st c (Returned v) w)
| run_unserialisable (c : Call) (w : World) :
    dataLayer c (world st) = (Returned VUndefined, w) ->
    ownCall ep c = true ->
    sentAsIs c = true ->
    Run dataLayer ep request st
      (Returned (answer500 ep (failureText ep) TypeError),
       logged (called st c (Returned VUndefined) w)
         [VStr (logLabel ep); TypeError])
| run_failed (c : Call) (e : Value) (w : World) :
    dataLayer c (world st) = (Thrown e, w) ->
    ownCall ep c = true ->
    Run dataLayer ep request st
      (Returned (answer500 ep (failureText ep) e),
       logged (called st c (Thrown e) w) [VStr (logLabel ep); e]).

End Runs.

(* ================================================================= *)
(** ** [lib/inventory.ts] *)

Module InventoryLib.
Import JS Handler.

(** A statement as [query] receives it: its text and its parameters. *)
Record Statement : Type := { text : string; params : list Value }.

Section Lib.
Variable World : Type.

(** [query] of [./db], which is not part of the sources: it runs a
    statement and resolves to the rows, or rejects. *)
Variable query : Statement -> World -> Outcome (list Value) * World.

(** The database and the statements sent to it, oldest first. *)
Record Db : Type := { store : World; sent : list Statement }.

Definition Async (A : Type) : Type := Db -> Outcome A * Db.

(** [await query(text, params)], then the rest of the function. *)
Definition withRows (A : Type) (text : string) (params : list Value)
    (k : list Value -> A) : Async A :=
  fun db =>
    let statement := {| text := text; params := params |} in
    let '(o, w) := query statement (store db) in
    let db' := {| store := w; sent := sent db ++ [statement] |} in
    match o with
    | Returned rows => (Returned (k rows), db')
    | Thrown e => (Thrown e, db')
    end.

(** [const [item] = rows] *)
Definition firstOf (rows : list Value) : Value :=
  match rows with
  | item :: _ => item
  | [] => VUndefined
  end.

Definition getAllInventory : Async Value :=
  withRows "SELECT * FROM inventory" [] (fun rows => VArr rows).

Definition getInventoryById (id : Value) : Async Value :=
  withRows "SELECT * FROM inventory WHERE id = $1" [id]
    (fun rows => let item := firstOf rows in or_else item VNull).

Definition addInventory (name amount unit reorder : Value) : Async Value :=
  withRows
    "INSERT INTO inventory (name, amount, unit, reorder) VALUES ($1, $2, $3, $4) RETURNING *"
    [name; amount; unit; reorder]
    (fun rows => let item := firstOf rows in item).

Definition updateInventory (id name amount unit reorder : Value)
    : Async Value :=
  withRows
    "UPDATE inventory SET name = $1, amount = $2, unit = $3, reorder = $4 WHERE id = $5 RETURNING *"
    [name; amount; unit; reorder; id]
    (fun rows => let item := firstOf rows in item).

Definition deleteInventory (id : Value) : Async Value :=
  withRows "DELETE FROM inventory WHERE id = $1" [id]
    (fun _ => VUndefined).

End Lib.

(** The functions of the module with their arguments. *)
Inductive Operation : Type :=
| GetAll
| GetById (id : Value)
| Add (name amount unit reorder : Value)
| Update (id name amount unit reorder : Value)
| Delete (id : Value).

Definition run (World : Type)
    (query : Statement -> World -> Outcome (list Value) * World)
    (op : Operation) : Async World Value :=
  match op with
  | GetAll => getAllInventory query
  | GetById id => getInventoryById query id
  | Add name amount unit reorder => addInventory query name amount unit reorder
  | Update id name amount unit reorder =>
      updateInventory query id name amount unit reorder
  | Delete id => deleteInventory query id
  end.

(** Which function an operation calls. *)
Definition functionOf (op : Operation) : string :=
  match op with
  | GetAll => "getAllInventory"
  | GetById _ => "getInventoryById"
  | Add _ _ _ _ => "addInventory"
  | Update _ _ _ _ _ => "updateInventory"
  | Delete _ => "deleteInventory"
  end.

(** What a function resolves to when its statement returns no row. *)
Definition emptyResult (op : Operation) : Value :=
  match op with
  | GetAll => VArr []
  | GetById _ => VNull
  | Add _ _ _ _ | Update _ _ _ _ _ | Delete _ => VUndefined
  end.

(** The placeholders [$1], [$2], ... of a statement text, in the order
    they appear (the statements here have fewer than ten). *)
Fixpoint scan (afterDollar : bool) (s : string) : list Z :=
  match s with
  | EmptyString => []
  | String c rest =>
      let next := scan (Ascii.eqb c "$") rest in
      if afterDollar then
        match digitValue c with
        | Some n => if n <? 10 then n :: scan false rest else next
        | None => next
        end
      else next
  end.

Definition placeholders (s : string) : list Z := scan false s.

(** A query function over rows kept in memory, for evaluating the module:
    a lookup by id returns the rows whose ["id"] is the parameter. *)
Definition rowsById (id : Value) (rows : list Value) : list Value :=
  filter (fun row =>
            match getProp row "id", id with
            | VNum x, VNum y => PrimFloat.eqb x y
            | _, _ => false
            end) rows.

Definition memoryQuery (s : Statement) (rows : list Value)
    : Outcome (list Value) * list Value :=
  match params s with
  | [id] =>
      if String.eqb (text s) "SELECT * FROM inventory WHERE id = $1"
      then (Returned (rowsById id rows), rows)
      else (Returned [], rows)
  | _ => (Returned rows, rows)
  end.

(** A table to evaluate the module on. *)
Definition stock : list Value :=
  [VObj [("id", VNum 1); ("name", VStr "Rice"); ("amount", VNum 40);
         ("unit", VStr "lb"); ("reorder", VBool false)]].

End InventoryLib.

(* ================================================================= *)
(** ** The [ManageInventory] component *)

Module ManageInventory.
Import JS.

Module InventoryItem.
Record t : Type := {
  id : Z;
  name : string;
  amount : float;
  unit : string;
  reorder : bool
}.
End InventoryItem.

(** The state hooks of the component. [amount] is a number or the empty
    string (here [None]); [inventory] is what the server sent, sorted. *)
Module Hooks.
Record t : Type := {
  inventory : Value;
  selectedItem : option InventoryItem.t;
  name : string;
  amount : option float;
  unit : string;
  reorder : bool;
  error : option string;
  isLoading : bool
}.
End Hooks.

(** What can be thrown: an instance of [Error] with its message, or any
    other value. *)
Inductive Exception : Type :=
| ErrorObject (message : string)
| Other (v : Value).

Inductive Result (A : Type) : Type :=
| Ok (a : A)
| Raise (x : Exception).
Arguments Raise {A} x.

(** The second argument of [fetch]; [body] is the value given to
    [JSON.stringify], sent with the JSON content type. *)
Record Init : Type := { method : string; body : option Value }.

Record Sent : Type := { url : string; init : option Init }.

(** A response as the component uses it. *)
Record Reply : Type := { ok : bool; json : Result Value }.

Section Component.
Variable Net : Type.

(** The browser: [fetch], [window.confirm], the conversion of a value to
    a string, the message of the [TypeError] of reading a property of
    [null] or [undefined], and the sort of the list by lower-cased name
    with [localeCompare]. *)
Variable fetch_ : Sent -> Net -> Result Reply * Net.
Variable confirm_ : string -> bool.
Variable String_ : Value -> string.
Variable typeErrorText : Value -> string.
Variable sortByName : Value -> Result Value.

Record Env : Type := {
  hooks : Hooks.t;
  net : Net;
  requests : list Sent;
  console : list (string * Exception)
}.

Definition C (A : Type) : Type := Env -> Result A * Env.

Definition ret (A : Type) (a : A) : C A := fun env => (Ok a, env).

Definition throw (A : Type) (x : Exception) : C A :=
  fun env => (Raise x, env).
Arguments throw {A} x.

Definition bind (A B : Type) (m : C A) (k : A -> C B) : C B :=
  fun env =>
    match m env with
    | (Ok a, env') => k a env'
    | (Raise x, env') => (Raise x, env')
    end.

Definition tryCatch (A : Type) (m : C A) (h : Exception -> C A) : C A :=
  fun env =>
    match m env with
    | (Ok a, env') => (Ok a, env')
    | (Raise x, env') => h x env'
    end.

(** [try { m } finally { f }] for an [f] that does not return. *)
Definition tryFinally (A : Type) (m : C A) (f : C unit) : C A :=
  fun env =>
    let '(r, env') := m env in
    match f env' with
    | (Ok _, env'') => (r, env'')
    | (Raise x, env'') => (Raise x, env'')
    end.

Definition lift (A : Type) (r : Result A) : C A := fun env => (r, env).

(** The state as the handler's closure holds it. *)
Definition closure : C Hooks.t := fun env => (Ok (hooks env), env).

Definition set (f : Hooks.t -> Hooks.t) : C unit :=
  fun env =>
    (Ok tt,
     {| hooks := f (hooks env); net := net env;
        requests := requests env; console := console env |}).

Definition setInventory (v : Value) : C unit :=
  set (fun h =>
         {| Hooks.inventory := v;
            Hooks.selectedItem := Hooks.selectedItem h;
            Hooks.name := Hooks.name h;
            Hooks.amount := Hooks.amount h;
            Hooks.unit := Hooks.unit h;
            Hooks.reorder := Hooks.reorder h;
            Hooks.error := Hooks.error h;
            Hooks.isLoading := Hooks.isLoading h |}).

Definition setSelectedItem (v : option InventoryItem.t) : C unit :=
  set (fun h =>
         {| Hooks.inventory := Hooks.inventory h;
            Hooks.selectedItem := v;
            Hooks.name := Hooks.name h;
            Hooks.amount := Hooks.amount h;
            Hooks.unit := Hooks.unit h;
            Hooks.reorder := Hooks.reorder h;
            Hooks.error := Hooks.error h;
            Hooks.isLoading := Hooks.isLoading h |}).

Definition setName (v : string) : C unit :=
  set (fun h =>
         {| Hooks.inventory := Hooks.inventory h;
            Hooks.selectedItem := Hooks.selectedItem h;
            Hooks.name := v;
            Hooks.amount := Hooks.amount h;
            Hooks.unit := Hooks.unit h;
            Hooks.reorder := Hooks.reorder h;
            Hooks.error := Hooks.error h;
            Hooks.isLoading := Hooks.isLoading h |}).

Definition setAmount (v : option float) : C unit :=
  set (fun h =>
         {| Hooks.inventory := Hooks.inventory h;
            Hooks.selectedItem := Hooks.selectedItem h;
            Hooks.name := Hooks.name h;
            Hooks.amount := v;
            Hooks.unit := Hooks.unit h;
            Hooks.reorder := Hooks.reorder h;
            Hooks.error := Hooks.error h;
            Hooks.isLoading := Hooks.isLoading h |}).

Definition setUnit (v : string) : C unit :=
  set (fun h =>
         {| Hooks.inventory := Hooks.inventory h;
            Hooks.selectedItem := Hooks.selectedItem h;
            Hooks.name := Hooks.name h;
            Hooks.amount := Hooks.amount h;
            Hooks.unit := v;
            Hooks.reorder := Hooks.reorder h;
            Hooks.error := Hooks.error h;
            Hooks.isLoading := Hooks.isLoading h |}).

Definition setReorder (v : bool) : C unit :=
  set (fun h =>
         {| Hooks.inventory := Hooks.inventory h;
            Hooks.selectedItem := Hooks.selectedItem h;
            Hooks.name := Hooks.name h;
            Hooks.amount := Hooks.amount h;
            Hooks.unit := Hooks.unit h;
            Hooks.reorder := v;
            Hooks.error := Hooks.error h;
            Hooks.isLoading := Hooks.isLoading h |}).

Definition setError (v : option string) : C unit :=
  set (fun h =>
         {| Hooks.inventory := Hooks.inventory h;
            Hooks.selectedItem := Hooks.selectedItem h;
            Hooks.name := Hooks.name h;
            Hooks.amount := Hooks.amount h;
            Hooks.unit := Hooks.unit h;
            Hooks.reorder := Hooks.reorder h;
            Hooks.error := v;
            Hooks.isLoading := Hooks.isLoading h |}).

Definition setIsLoading (v : bool) : C unit :=
  set (fun h =>
         {| Hooks.inventory := Hooks.inventory h;
            Hooks.selectedItem := Hooks.selectedItem h;
            Hooks.name := Hooks.name h;
            Hooks.amount := Hooks.amount h;
            Hooks.unit := Hooks.unit h;
            Hooks.reorder := Hooks.reorder h;
            Hooks.error := Hooks.error h;
            Hooks.isLoading := v |}).

(** [await fetch(url, init)] *)
Definition fetch (url : string) (init : option Init) : C Reply :=
  fun env =>
    let request := {| url := url; init := init |} in
    let '(r, n) := fetch_ request (net env) in
    (r, {| hooks := hooks env; net := n;
           requests := requests env ++ [request];
           console := console env |}).

(** [console.error(label, error)] *)
Definition console_error (label : string) (x : Exception) : C unit :=
  fun env =>
    (Ok tt,
     {| hooks := hooks env; net := net env; requests := requests env;
        console := console env ++ [(label, x)] |}).

Notation "x <- m ;; k" := (bind m (fun x => k))
  (at level 61, m at next level, right associativity).
Notation "m ;;; k" := (bind m (fun _ => k))
  (at level 61, right associativity).

(** [new Error(data.error || fallback)]: the message of the error, or the
    [TypeError] of reading [error] from [null] or [undefined]. *)
Definition newError (data : Value) (fallback : string) : Exception :=
  match data with
  | VNull | VUndefined => ErrorObject (typeErrorText data)
  | _ =>
      match or_else (getProp data "error") (VStr fallback) with
      | VStr s => ErrorObject s
      | v => ErrorObject (String_ v)
      end
  end.

(** [error instanceof Error ? error.message : fallback] *)
Definition messageOf (x : Exception) (fallback : string) : string :=
  match x with
  | ErrorObject message => message
  | Other _ => fallback
  end.

Definition fetchInventory : C unit :=
  tryCatch
    (response <- fetch "/api/inventory" None ;;
     if negb (ok response)
     then throw (ErrorObject "Failed to fetch inventory")
     else
       data <- lift (json response) ;;
       sortedData <- lift (sortByName data) ;;
       setInventory sortedData ;;;
       setIsLoading false)
    (fun error =>
       console_error "Error fetching inventory:" error ;;;
       setError (Some "Failed to load inventory.")).

Definition resetForm : C unit :=
  setSelectedItem None ;;;
  setName "" ;;;
  setAmount None ;;;
  setUnit "" ;;;
  setReorder false ;;;
  setError None.

(** The guard [!name || amount === '' || !unit] comes first; past it the
    amount is a number. *)
Definition handleAddItem : C unit :=
  h <- closure ;;
  match Hooks.amount h with
  | Some amount_ =>
      if String.eqb (Hooks.name h) "" || String.eqb (Hooks.unit h) ""
      then setError (Some "All fields are required")
      else
        setIsLoading true ;;;
        setError None ;;;
        tryFinally
          (tryCatch
             (response <-
                fetch "/api/inventory"
                  (Some {| method := "POST";
                           body :=
                             Some (VObj [("name", VStr (Hooks.name h));
                                         ("amount", VNum amount_);
                                         ("unit", VStr (Hooks.unit h));
                                         ("reorder", VBool (Hooks.reorder h))]) |}) ;;
              data <- lift (json response) ;;
              if negb (ok response)
              then throw (newError data "Failed to add item")
              else fetchInventory ;;; resetForm)
             (fun error =>
                console_error "Error adding item:" error ;;;
                setError (Some (messageOf error "Failed to add item"))))
          (setIsLoading false)
  | None => setError (Some "All fields are required")
  end.

(** The guard is [!selectedItem || !name || amount === '' || !unit]. *)
Definition handleUpdateItem : C unit :=
  h <- closure ;;
  match Hooks.selectedItem h, Hooks.amount h with
  | Some selected, Some amount_ =>
      if String.eqb (Hooks.name h) "" || String.eqb (Hooks.unit h) ""
      then setError (Some "All fields are required")
      else
        setIsLoading true ;;;
        setError None ;;;
        tryFinally
          (tryCatch
             (response <-
                fetch "/api/inventory"
                  (Some {| method := "PUT";
                           body :=
                             Some (VObj [("id",
                                          VNum (ofZ (InventoryItem.id selected)));
                                         ("name", VStr (Hooks.name h));
                                         ("amount", VNum amount_);
                                         ("unit", VStr (Hooks.unit h));
                                         ("reorder", VBool (Hooks.reorder h))]) |}) ;;
              data <- lift (json response) ;;
              if negb (ok response)
              then throw (newError data "Failed to update item")
              else fetchInventory ;;; resetForm)
             (fun error =>
                console_error "Error updating item:" error ;;;
                setError (Some (messageOf error "Failed to update item"))))
          (setIsLoading false)
  | _, _ => setError (Some "All fields are required")
  end.

Definition handleDeleteItem (id : Z) : C unit :=
  if negb (confirm_ "Are you sure you want to delete this item?")
  then ret tt
  else
    setIsLoading true ;;;
    setError None ;;;
    tryFinally
      (tryCatch
         (response <-
            fetch ("/api/inventory?id=" ++ NilZero.string_of_int (Z.to_int id))
              (Some {| method := "DELETE"; body := None |}) ;;
          if negb (ok response)
          then
            data <- lift (json response) ;;
            throw (newError data "Failed to delete item")
          else fetchInventory)
         (fun error =>
            console_error "Error deleting item:" error ;;;
            setError (Some (messageOf error "Failed to delete item"))))
      (setIsLoading false).

Definition handleEditClick (item : InventoryItem.t) : C unit :=
  setSelectedItem (Some item) ;;;
  setName (InventoryItem.name item) ;;;
  setAmount (Some (InventoryItem.amount item)) ;;;
  setUnit (InventoryItem.unit item) ;;;
  setReorder (InventoryItem.reorder item) ;;;
  setError None.

(** The form's [onSubmit]. *)
Definition onSubmit : C unit :=
  h <- closure ;;
  match Hooks.selectedItem h with
  | Some _ => handleUpdateItem
  | None => handleAddItem
  end.

End Component.

(** The hooks as [useState] initialises them. *)
Definition mounted : Hooks.t :=
  {| Hooks.inventory := VArr []; Hooks.selectedItem := None;
     Hooks.name := ""; Hooks.amount := None; Hooks.unit := "";
     Hooks.reorder := false; Hooks.error := None; Hooks.isLoading := true |}.

(** The hooks with the form emptied, as [resetForm] leaves them. *)
Definition cleared (h : Hooks.t) : Hooks.t :=
  {| Hooks.inventory := Hooks.inventory h; Hooks.selectedItem := None;
     Hooks.name := ""; Hooks.amount := None; Hooks.unit := "";
     Hooks.reorder := false; Hooks.error := None;
     Hooks.isLoading := Hooks.isLoading h |}.

(** The body of the PUT request that sends an item back. *)
Definition asBody (item : InventoryItem.t) : Value :=
  VObj [("id", VNum (ofZ (InventoryItem.id item)));
        ("name", VStr (InventoryItem.name item));
        ("amount", VNum (InventoryItem.amount item));
        ("unit", VStr (InventoryItem.unit item));
        ("reorder", VBool (InventoryItem.reorder item))].

(** The hooks with another list, error or loading flag. *)
Definition withInventory (v : Value) (h : Hooks.t) : Hooks.t :=
  {| Hooks.inventory := v; Hooks.selectedItem := Hooks.selectedItem h;
     Hooks.name := Hooks.name h; Hooks.amount := Hooks.amount h;
     Hooks.unit := Hooks.unit h; Hooks.reorder := Hooks.reorder h;
     Hooks.error := Hooks.error h; Hooks.isLoading := Hooks.isLoading h |}.

Definition withError (v : option string) (h : Hooks.t) : Hooks.t :=
  {| Hooks.inventory := Hooks.inventory h;
     Hooks.selectedItem := Hooks.selectedItem h;
     Hooks.name := Hooks.name h; Hooks.amount := Hooks.amount h;
     Hooks.unit := Hooks.unit h; Hooks.reorder := Hooks.reorder h;
     Hooks.error := v; Hooks.isLoading := Hooks.isLoading h |}.

Definition withLoading (v : bool) (h : Hooks.t) : Hooks.t :=
  {| Hooks.inventory := Hooks.inventory h;
     Hooks.selectedItem := Hooks.selectedItem h;
     Hooks.name := Hooks.name h; Hooks.amount := Hooks.amount h;
     Hooks.unit := Hooks.unit h; Hooks.reorder := Hooks.reorder h;
     Hooks.error := Hooks.error h; Hooks.isLoading := v |}.

(** An environment with these hooks and this network, nothing sent or
    logged yet. *)
Definition opened (Net : Type) (h : Hooks.t) (n : Net) : Env Net :=
  {| hooks := h; net := n; requests := []; console := [] |}.

(** The requests of the component. *)
Definition listRequest : Sent := {| url := "/api/inventory"; init := None |}.

Definition postRequest (h : Hooks.t) (amount : float) : Sent :=
  {| url := "/api/inventory";
     init := Some {| method := "POST";
                     body := Some (VObj [("name", VStr (Hooks.name h));
                                         ("amount", VNum amount);
                                         ("unit", VStr (Hooks.unit h));
                                         ("reorder",
                                          VBool (Hooks.reorder h))]) |} |}.

Definition putRequest (item : InventoryItem.t) : Sent :=
  {| url := "/api/inventory";
     init := Some {| method := "PUT"; body := Some (asBody item) |} |}.

(** A server that accepts everything and lists one item, and one that is
    unreachable. *)
Definition rice : InventoryItem.t :=
  {| InventoryItem.id := 1; InventoryItem.name := "Rice";
     InventoryItem.amount := 40; InventoryItem.unit := "lb";
     InventoryItem.reorder := false |}.

Definition accepting (request : Sent) (n : nat) : Result Reply * nat :=
  (Ok {| ok := true; json := Ok (VArr [asBody rice]) |}, S n).

Definition refusing (request : Sent) (n : nat) : Result Reply * nat :=
  (Ok {| ok := false;
         json := Ok (VObj [("error", VStr "Item already exists")]) |}, S n).

Definition unreachable (request : Sent) (n : nat) : Result Reply * nat :=
  (Raise (ErrorObject "Failed to fetch"), S n).

Definition yes (question : string) : bool := true.

Definition no (question : string) : bool := false.

Definition shown (v : Value) : string := "[object Object]".

Definition cannotRead (v : Value) : string :=
  "Cannot read properties of null (reading 'error')".

Definition unsorted (v : Value) : Result Value := Ok v.

(** The form as typed in for a new item. *)
Definition typed : Hooks.t :=
  {| Hooks.inventory := VArr []; Hooks.selectedItem := None;
     Hooks.name := "Rice"; Hooks.amount := Some 40%float;
     Hooks.unit := "lb"; Hooks.reorder := false; Hooks.error := None;
     Hooks.isLoading := false |}.

End ManageInventory.

(* ================================================================= *)
(** ** Properties of the meal builder *)

Module MealBuilderSpec.
Import Types MealBuilder.

(** The requirements are one of the three rows of the table; every other
    size gets the first row. *)
Lemma getMealRequirements_cases (size : string) :
  getMealRequirements size = {| sides := 1; entrees := 1 |}
  \/ getMealRequirements size = {| sides := 1; entrees := 2 |}
  \/ getMealRequirements size = {| sides := 2; entrees := 3 |}.
Proof.
  unfold getMealRequirements.
  destruct (String.eqb size "bowl"); [now left|].
  destruct (String.eqb size "plate"); [now right; left|].
  destruct (String.eqb size "bigger plate"); [now right; right|now left].
Qed.

Lemma getMealRequirements_default (size : string) :
  size <> "bowl" -> size <> "plate" -> size <> "bigger plate" ->
  getMealRequirements size = {| sides := 1; entrees := 1 |}.
Proof.
  intros Hb Hp Hg. unfold getMealRequirements.
  apply String.eqb_neq in Hb, Hp, Hg. now rewrite Hb, Hp, Hg.
Qed.

(** A float that is 100 compares equal to 100. *)
Lemma eq_100_eqb (x : float) : x = 100%float -> PrimFloat.eqb x 100 = true.
Proof. intros ->. reflexivity. Qed.

Ltac by_requirements size :=
  destruct (getMealRequirements_cases size) as [R | [R | R]].

Ltac by_slots meal :=
  destruct meal as [[s1|] [s2|] [e1|] [e2|] [e3|]].

Ltac unfold_progress R :=
  unfold addToOrderDisabled, getProgress, filledSlots, progressOf,
    allRequiredSlots, requiredSlots, withinQuota;
  rewrite ?R; cbn [sides entrees side1 side2 entree1 entree2 entree3].

Ltac refute_progress H :=
  apply eq_100_eqb in H; vm_compute in H; discriminate H.

Ltac refute_filled H :=
  vm_compute in H;
  repeat match goal with
         | F : Forall _ (_ :: _) |- _ => inversion F; clear F; subst
         end;
  congruence.

Ltac all_filled := vm_compute; repeat constructor; discriminate.

(** C1. For each of the three sizes, [getMealRequirements] returns the
    (sides, entrees) counts the specification enumerates: (1,1) for
    'bowl', (1,2) for 'plate', (2,3) for 'bigger plate'. *)
Theorem getMealRequirements_enumerated (sz : SizeEnum) :
  getMealRequirements (sizeString sz)
  = {| sides := fst (required sz); entrees := snd (required sz) |}.
Proof. destruct sz; reflexivity. Qed.

(** C2. For every size and every combination of filled slots,
    [getProgress] is the number of filled required slots, divided by the
    number of required slots of the size, times 100. *)
Theorem getProgress_filled_over_total (size : string) (meal : MealInProgress) :
  getProgress size meal = progressOf (allRequiredSlots size meal).
Proof.
  by_requirements size; unfold_progress R; by_slots meal; reflexivity.
Qed.

(** C3. For every size and meal, "Add to Order" is enabled exactly when
    [getProgress] is 100, which is exactly when every required slot of the
    size is filled. *)
Theorem addToOrder_enabled_iff_complete (size : string) (meal : MealInProgress) :
  (addToOrderDisabled size meal = false <-> getProgress size meal = 100%float)
  /\ (getProgress size meal = 100%float
      <-> Forall filled (allRequiredSlots size meal)).
Proof.
  by_requirements size; unfold_progress R; by_slots meal;
    (split; split; intro H);
    first [ solve [vm_compute; reflexivity]
          | solve [all_filled]
          | solve [vm_compute in H; discriminate H]
          | solve [refute_progress H]
          | solve [refute_filled H] ].
Qed.

(** *** Disabling of the item buttons *)

Lemma blockedBy_iff (item : MenuItem) (slots : list (option MenuItem)) :
  blockedBy item slots = true
  <-> Forall filled slots /\ ~ Exists (occupiedBy item) slots.
Proof.
  induction slots as [|[m|] slots IH]; simpl.
  - split; [intros _|reflexivity].
    split; [constructor|]. intro E. inversion E.
  - unfold otherThan at 1.
    rewrite andb_true_iff, negb_true_iff, Z.eqb_neq, IH.
    split.
    + intros [Hne [HF HE]]. split.
      * constructor; [discriminate|exact HF].
      * intro E. inversion E as [? ? [m' [Hm Hid]]|]; subst.
        -- injection Hm as <-. contradiction.
        -- contradiction.
    + intros [HF HE]. inversion HF; subst. repeat split.
      * intro Hid. apply HE. left. now exists m.
      * assumption.
      * intro E. apply HE. now right.
  - split; [discriminate|].
    intros [HF _]. inversion HF as [|? ? Hnone]; subst. now elim Hnone.
Qed.

(** The side rule holds for every size string: it reads the requirements. *)
Lemma isSideDisabled_slots (size : string) (meal : MealInProgress)
    (item : MenuItem) :
  isSideDisabled size meal item
  = blockedBy item (requiredSlots size Side meal).
Proof.
  unfold isSideDisabled, requiredSlots.
  by_requirements size; rewrite R; by_slots meal; simpl;
    rewrite ?andb_true_r, ?andb_false_r; reflexivity.
Qed.

(** The entree rule branches on the size itself: it agrees with the
    requirements on the three sizes. *)
Lemma isEntreeDisabled_slots (sz : SizeEnum) (meal : MealInProgress)
    (item : MenuItem) :
  isEntreeDisabled (sizeString sz) meal item
  = blockedBy item (requiredSlots (sizeString sz) Entree meal).
Proof.
  destruct sz; by_slots meal; simpl;
    rewrite ?andb_true_r, ?andb_false_r, ?andb_assoc; reflexivity.
Qed.

(** C4. For each of the three sizes, every meal and every menu item that
    has a button (a side or an entree), the button is disabled exactly
    when all slots of the item's category that the size requires are
    filled and none of them holds the item. *)
Theorem selectionDisabled_iff (sz : SizeEnum) (meal : MealInProgress)
    (item : MenuItem) (c : Category) :
  category item = Some c ->
  exists b,
    selectionDisabled (sizeString sz) meal item = Some b
    /\ (b = true
        <-> Forall filled (requiredSlots (sizeString sz) c meal)
            /\ ~ Exists (occupiedBy item)
                   (requiredSlots (sizeString sz) c meal)).
Proof.
  unfold category, selectionDisabled.
  destruct (String.eqb (item_type item) "side").
  - intros [= <-]. eexists; split; [reflexivity|].
    rewrite isSideDisabled_slots. apply blockedBy_iff.
  - destruct (String.eqb (item_type item) "entree"); [|discriminate].
    intros [= <-]. eexists; split; [reflexivity|].
    rewrite isEntreeDisabled_slots. apply blockedBy_iff.
Qed.

Lemma selectionDisabled_iff_witness :
  exists b,
    selectionDisabled "plate"
      {| side1 := None; side2 := None;
         entree1 := Some (item 1 "entree"); entree2 := Some (item 2 "entree");
         entree3 := None |}
      (item 3 "entree") = Some b
    /\ (b = true
        <-> Forall filled
              [Some (item 1 "entree"); Some (item 2 "entree")]
            /\ ~ Exists (occupiedBy (item 3 "entree"))
                   [Some (item 1 "entree"); Some (item 2 "entree")]).
Proof.
  exact (@selectionDisabled_iff plate _ (item 3 "entree") Entree eq_refl).
Defined.

(** Outside the three sizes the requirements default to one side and one
    entree, while the entree buttons follow the three-entree branch: with
    the one required entree chosen, the other entrees stay selectable. *)
Example isEntreeDisabled_other_size :
  getMealRequirements "family" = {| sides := 1; entrees := 1 |}
  /\ isEntreeDisabled "family"
       {| side1 := None; side2 := None;
          entree1 := Some (item 1 "entree"); entree2 := None;
          entree3 := None |}
       (item 2 "entree") = false.
Proof. split; reflexivity. Qed.

(** C10. For every size string, also one outside the three sizes (it gets
    the default requirements (1,1)), and every meal, also one with slots
    filled beyond the quota of the size, [getProgress] lies between 0 and
    100: the slots beyond the quota are not counted. *)
Theorem getProgress_bounds (size : string) (meal : MealInProgress) :
  (size <> "bowl" -> size <> "plate" -> size <> "bigger plate" ->
   getMealRequirements size = {| sides := 1; entrees := 1 |})
  /\ PrimFloat.leb 0 (getProgress size meal) = true
  /\ PrimFloat.leb (getProgress size meal) 100 = true
  /\ filledSlots size meal
     = Z.of_nat (List.length (filter isFilled (allRequiredSlots size meal)))
  /\ getProgress size meal = getProgress size (withinQuota size meal).
Proof.
  split; [apply getMealRequirements_default|].
  unfold getProgress, filledSlots, allRequiredSlots, requiredSlots,
    withinQuota.
  by_requirements size; rewrite R; by_slots meal;
    repeat split; vm_compute; reflexivity.
Qed.

End MealBuilderSpec.

(* ================================================================= *)
(** ** Properties of the route handlers *)

Module RoutesSpec.
Import JS Handler Routes.

Lemma made_nothing (World A : Type) (m : M World A) (st : State World) :
  calls (snd (m st)) = calls st -> made m st = [].
Proof. unfold made. intros ->. apply skipn_all. Qed.

Lemma made_these (World A : Type) (m : M World A) (st : State World)
    (l : list (Call * Outcome Value)) :
  calls (snd (m st)) = (calls st ++ l)%list -> made m st = l.
Proof.
  unfold made. intros ->. rewrite skipn_app, skipn_all, Nat.sub_diag.
  reflexivity.
Qed.

Lemma isUndefined_false (v : Value) : v <> VUndefined -> isUndefined v = false.
Proof. destruct v; simpl; congruence. Qed.

Lemma isUndefined_true (v : Value) : v = VUndefined -> isUndefined v = true.
Proof. now intros ->. Qed.

Lemma truthy_undefined (v : Value) : v = VUndefined -> truthy v = false.
Proof. now intros ->. Qed.

Lemma destructure_value (World : Type) (v : Value) (st : State World) :
  v <> VNull -> v <> VUndefined -> destructure v st = (Returned tt, st).
Proof. intros Hnull Hundef. destruct v; try reflexivity; congruence. Qed.

Lemma truthy_defined (v : Value) : truthy v = true -> v <> VUndefined.
Proof. intros H ->. discriminate H. Qed.

(** [NextResponse.json] builds the response of every value but
    [undefined]. *)
Lemma json_value (World : Type) (v : Value) (status : Z) (st : State World) :
  v <> VUndefined ->
  NextResponse.json v status st = (Returned (NextResponse_json v status), st).
Proof. intros Hv. destruct v; try reflexivity. congruence. Qed.

(** An id that parses is not empty. *)
Lemma parses_nonempty (s : string) :
  isNaN (parseInt s) = false -> String.eqb s "" = false.
Proof.
  intro H. destruct (String.eqb_spec s ""); [subst; discriminate H|reflexivity].
Qed.

Section AnyDataLayer.
Variable World : Type.
Variable dataLayer : Call -> World -> Outcome Value * World.
Variable Number_ : Value -> float.

(** The lookup by a non-empty id decides the response of GET. *)
Lemma menu_GET_by_id (request : Request) (st : State World) (s : string)
    (r : Value) (w' : World) :
  searchParams_get (searchParams request) "id" = Some s ->
  s <> "" ->
  dataLayer (getMenuItemById (parseInt s)) (world st) = (Returned r, w') ->
  response (MenuRoute.GET dataLayer request) st
  = Returned
      (if truthy r then NextResponse_json r 200
       else NextResponse_json
              (VObj [("error", VStr "Menu item not found.")]) 404).
Proof.
  intros Hid Hne Hcall. apply String.eqb_neq in Hne.
  unfold response, MenuRoute.GET, tryCatch, bind, await.
  rewrite Hid, Hne, Hcall. destruct (truthy r) eqn:Hr; cbn [negb].
  - rewrite (json_value _ _ (truthy_defined Hr)). reflexivity.
  - reflexivity.
Qed.

Lemma transactions_GET_by_id (request : Request) (st : State World)
    (s : string) (r : Value) (w' : World) :
  searchParams_get (searchParams request) "id" = Some s ->
  s <> "" ->
  dataLayer (getTransactionDetails (parseInt s)) (world st)
  = (Returned r, w') ->
  response (TransactionsRoute.GET dataLayer request) st
  = Returned
      (if truthy r then NextResponse_json r 200
       else NextResponse_json
              (VObj [("error", VStr "Transaction not found")]) 404).
Proof.
  intros Hid Hne Hcall. apply String.eqb_neq in Hne.
  unfold response, TransactionsRoute.GET, tryCatch, bind, await.
  rewrite Hid, Hne, Hcall. destruct (truthy r) eqn:Hr; cbn [negb].
  - rewrite (json_value _ _ (truthy_defined Hr)). reflexivity.
  - reflexivity.
Qed.

(** A request without id, or with an empty one, is answered by the list
    function alone. *)
Lemma menu_GET_list (request : Request) (st : State World) (v : Value)
    (w' : World) :
  (searchParams_get (searchParams request) "id" = None
   \/ searchParams_get (searchParams request) "id" = Some "") ->
  dataLayer getAllMenuItems (world st) = (Returned v, w') ->
  MenuRoute.GET dataLayer request st
  = match v with
    | VUndefined =>
        (Returned (NextResponse_json
                     (VObj [("error", VStr "Failed to fetch menu items.")])
                     500),
         {| world := w';
            calls := calls st ++ [(getAllMenuItems, Returned v)];
            console := console st
                       ++ [[VStr "Error fetching menu items:"; TypeError]] |})
    | _ =>
        (Returned (NextResponse_json v 200),
         {| world := w';
            calls := calls st ++ [(getAllMenuItems, Returned v)];
            console := console st |})
    end.
Proof.
  intros Hid Hcall. unfold MenuRoute.GET, tryCatch, bind, await.
  destruct Hid as [-> | ->]; cbn [String.eqb]; rewrite Hcall;
    destruct v; reflexivity.
Qed.

Lemma transactions_GET_list (request : Request) (st : State World)
    (v : Value) (w' : World) :
  (searchParams_get (searchParams request) "id" = None
   \/ searchParams_get (searchParams request) "id" = Some "") ->
  dataLayer getTransactions (world st) = (Returned v, w') ->
  TransactionsRoute.GET dataLayer request st
  = match v with
    | VUndefined =>
        (Returned (NextResponse_json
                     (VObj [("error", VStr "Failed to fetch transactions");
                            ("details", TypeError)])
                     500),
         {| world := w';
            calls := calls st ++ [(getTransactions, Returned v)];
            console := console st
                       ++ [[VStr "Error in transactions GET route:";
                            TypeError]] |})
    | _ =>
        (Returned (NextResponse_json v 200),
         {| world := w';
            calls := calls st ++ [(getTransactions, Returned v)];
            console := console st |})
    end.
Proof.
  intros Hid Hcall. unfold TransactionsRoute.GET, tryCatch, bind, await.
  destruct Hid as [-> | ->]; cbn [String.eqb]; rewrite Hcall;
    destruct v; reflexivity.
Qed.

End AnyDataLayer.

(** C5, as amended. For every GET request to /api/menu or
    /api/transactions with an id query parameter: when the id is not
    empty and the lookup by [parseInt] of the id yields no record, the
    handler responds with status 404 and a body with an error field, and
    when it yields a record the handler responds with the record and
    status 200; when the id is empty the handler runs as on the request
    without parameters, its one call is the list function, and it
    responds with the list the function returns and status 200. *)
Theorem GET_by_nonempty_id (World : Type)
    (dataLayer : Call -> World -> Outcome Value * World)
    (request : Request) (st : State World) (s : string) :
  searchParams_get (searchParams request) "id" = Some s ->
  (s <> "" ->
   (forall r w',
       dataLayer (getMenuItemById (parseInt s)) (world st) = (Returned r, w') ->
       (truthy r = false ->
        response (MenuRoute.GET dataLayer request) st
        = Returned (NextResponse_json
                      (VObj [("error", VStr "Menu item not found.")]) 404))
       /\ (truthy r = true ->
           response (MenuRoute.GET dataLayer request) st
           = Returned (NextResponse_json r 200)))
   /\ (forall r w',
          dataLayer (getTransactionDetails (parseInt s)) (world st)
          = (Returned r, w') ->
          (truthy r = false ->
           response (TransactionsRoute.GET dataLayer request) st
           = Returned (NextResponse_json
                         (VObj [("error", VStr "Transaction not found")])
                         404))
          /\ (truthy r = true ->
              response (TransactionsRoute.GET dataLayer request) st
              = Returned (NextResponse_json r 200))))
  /\ (s = "" ->
      let bare := {| searchParams := []; json := json request |} in
      MenuRoute.GET dataLayer request st = MenuRoute.GET dataLayer bare st
      /\ TransactionsRoute.GET dataLayer request st
         = TransactionsRoute.GET dataLayer bare st
      /\ (forall v w',
             dataLayer getAllMenuItems (world st) = (Returned v, w') ->
             v <> VUndefined ->
             response (MenuRoute.GET dataLayer request) st
             = Returned (NextResponse_json v 200)
             /\ made (MenuRoute.GET dataLayer request) st
                = [(getAllMenuItems, Returned v)])
      /\ (forall v w',
             dataLayer getTransactions (world st) = (Returned v, w') ->
             v <> VUndefined ->
             response (TransactionsRoute.GET dataLayer request) st
             = Returned (NextResponse_json v 200)
             /\ made (TransactionsRoute.GET dataLayer request) st
                = [(getTransactions, Returned v)])).
Proof.
  intros Hid. split.
  - intros Hne. split; intros r w' Hcall.
    + rewrite (menu_GET_by_id dataLayer request st Hid Hne Hcall).
      split; intros ->; reflexivity.
    + rewrite (transactions_GET_by_id dataLayer request st Hid Hne Hcall).
      split; intros ->; reflexivity.
  - intros ->. cbv zeta. split; [|split; [|split]].
    + unfold MenuRoute.GET. rewrite Hid. reflexivity.
    + unfold TransactionsRoute.GET. rewrite Hid. reflexivity.
    + intros v w' Hcall Hv. unfold response. split; [|apply made_these];
        rewrite (menu_GET_list dataLayer request st (or_intror Hid) Hcall);
        (destruct v; [now elim Hv | reflexivity ..]).
    + intros v w' Hcall Hv. unfold response. split; [|apply made_these];
        rewrite (transactions_GET_list dataLayer request st (or_intror Hid)
                   Hcall);
        (destruct v; [now elim Hv | reflexivity ..]).
Qed.

Lemma GET_by_nonempty_id_witness :
  response (MenuRoute.GET memoryLayer (query "8")) (start menu)
  = Returned (NextResponse_json
                (VObj [("error", VStr "Menu item not found.")]) 404)
  /\ response (TransactionsRoute.GET memoryLayer (query "7")) (start sales)
     = Returned (NextResponse_json lunch 200)
  /\ response (MenuRoute.GET memoryLayer (query spaced7)) (start menu)
     = Returned (NextResponse_json friedRice 200)
  /\ response (MenuRoute.GET memoryLayer (query "")) (start menu)
     = Returned (NextResponse_json (VArr [friedRice]) 200).
Proof.
  split; [|split; [|split]].
  - refine (proj1 (proj1 (proj1 (@GET_by_nonempty_id _ memoryLayer
                                   (query "8") (start menu) "8" eq_refl) _)
                     VNull menu eq_refl) eq_refl).
    discriminate.
  - refine (proj2 (proj2 (proj1 (@GET_by_nonempty_id _ memoryLayer
                                   (query "7") (start sales) "7" eq_refl) _)
                     lunch sales eq_refl) eq_refl).
    discriminate.
  - refine (proj2 (proj1 (proj1 (@GET_by_nonempty_id _ memoryLayer
                                   (query spaced7) (start menu) spaced7
                                   eq_refl) _)
                     friedRice menu eq_refl) eq_refl).
    discriminate.
  - refine (proj1 (proj1 (proj2 (proj2 (proj2
              (@GET_by_nonempty_id _ memoryLayer (query "") (start menu) ""
                 eq_refl) eq_refl)))
              (VArr [friedRice]) menu eq_refl _)).
    discriminate.
Defined.

(** C5 as stated fails on [?id=]: the request carries the parameter, a
    lookup by it finds no record, and both handlers answer 200 with the
    whole list. *)
Lemma GET_empty_id_lists_all :
  searchParams_get (searchParams (query "")) "id" = Some ""
  /\ memoryLayer (getMenuItemById (parseInt "")) menu = (Returned VNull, menu)
  /\ response (MenuRoute.GET memoryLayer (query "")) (start menu)
     = Returned (NextResponse_json (VArr [friedRice]) 200)
  /\ memoryLayer (getTransactionDetails (parseInt "")) sales
     = (Returned VNull, sales)
  /\ response (TransactionsRoute.GET memoryLayer (query "")) (start sales)
     = Returned (NextResponse_json (VArr [lunch]) 200).
Proof. repeat split. Qed.

(** C6. For every body that passes validation, once the data layer has
    created the record and returned it (a value, not [undefined]), the
    menu handler responds with the record and status 201, the transactions
    handler with the record and status 200. *)
Theorem POST_created (World : Type)
    (dataLayer : Call -> World -> Outcome Value * World)
    (Number_ : Value -> float)
    (request : Request) (st : State World) (body record : Value)
    (w' : World) :
  json request = Returned body ->
  record <> VUndefined ->
  (validMenuItem body ->
   dataLayer
     (addMenuItem (getProp body "item_type") (getProp body "name")
        (getProp body "price") (getProp body "premium")
        (withDefault (getProp body "ingredients") (VArr [])))
     (world st) = (Returned record, w') ->
   response (MenuRoute.POST dataLayer request) st
   = Returned (NextResponse_json record 201))
  /\ (validTransaction body ->
      dataLayer (addTransaction (transactionOf Number_ body)) (world st)
      = (Returned record, w') ->
      response (TransactionsRoute.POST dataLayer Number_ request) st
      = Returned (NextResponse_json record 200)).
Proof.
  intros Hjson Hrecord. split.
  - intros (Hnull & Hundef & Htype & Hname & Hprice & Hpremium) Hcall.
    unfold response, MenuRoute.POST, tryCatch, bind, liftOutcome.
    rewrite Hjson, (destructure_value st Hnull Hundef). cbv zeta.
    rewrite Htype, Hname, (isUndefined_false Hprice),
      (isUndefined_false Hpremium).
    unfold await. cbn [negb orb]. rewrite Hcall.
    rewrite (json_value _ _ Hrecord). reflexivity.
  - intros (Hnull & Hundef & Hcustomer & Hcashier & Hprice) Hcall.
    unfold response, TransactionsRoute.POST, tryCatch, bind, liftOutcome.
    rewrite Hjson, (destructure_value st Hnull Hundef). cbv zeta.
    rewrite Hcustomer, Hcashier, (isUndefined_false Hprice).
    unfold await. cbn [negb orb]. unfold transactionOf in Hcall.
    rewrite Hcall. rewrite (json_value _ _ Hrecord). reflexivity.
Qed.

Lemma POST_created_witness :
  response (MenuRoute.POST memoryLayer (post newSide)) (start menu)
  = Returned
      (NextResponse_json
         (VObj [("id", VNum 8); ("item_type", VStr "side");
                ("name", VStr "Chow Mein"); ("price", VNum 4.5);
                ("premium", VBool false); ("ingredients", VArr [])])
         201)
  /\ response (TransactionsRoute.POST memoryLayer numberOf (post sale))
       (start menu)
     = Returned
         (NextResponse_json
            (VObj [("id", VNum 8); ("customerName", VStr "Ann");
                   ("cashierName", VStr "Bo"); ("salePrice", VNum 12.5);
                   ("items", VNum 0); ("meals", VNum 1);
                   ("appetizers", VNum 0); ("drinks", VNum 0)])
            200).
Proof.
  split.
  - refine (proj1 (@POST_created _ memoryLayer numberOf (post newSide)
                     (start menu) newSide _ _ eq_refl _) _ eq_refl).
    + discriminate.
    + repeat split; try reflexivity; discriminate.
  - refine (proj2 (@POST_created _ memoryLayer numberOf (post sale)
                     (start menu) sale _ _ eq_refl _) _ eq_refl).
    + discriminate.
    + repeat split; try reflexivity; discriminate.
Defined.

(** C7. A DELETE request to /api/menu whose id parameter is missing or
    does not parse as a number gets status 400, and [deleteMenuItem] is
    not called; with an id that parses, once [deleteMenuItem] has
    returned, the response has status 200 and a message field. *)
Theorem DELETE_validates_id (World : Type)
    (dataLayer : Call -> World -> Outcome Value * World)
    (request : Request) (st : State World) :
  let id := searchParams_get (searchParams request) "id" in
  ((id = None \/ exists s, id = Some s /\ isNaN (parseInt s) = true) ->
   response (MenuRoute.DELETE dataLayer request) st
   = Returned (NextResponse_json
                 (VObj [("error", VStr "Invalid or missing menu item ID.")])
                 400)
   /\ made (MenuRoute.DELETE dataLayer request) st = [])
  /\ (forall s r w',
         id = Some s -> isNaN (parseInt s) = false ->
         dataLayer (deleteMenuItem (parseInt s)) (world st)
         = (Returned r, w') ->
         response (MenuRoute.DELETE dataLayer request) st
         = Returned (NextResponse_json
                       (VObj [("message",
                               VStr "Menu item deleted successfully.")])
                       200)
         /\ made (MenuRoute.DELETE dataLayer request) st
            = [(deleteMenuItem (parseInt s), Returned r)]).
Proof.
  intros id. subst id. split.
  - intros [Hid | (s & Hid & Hnan)].
    + unfold response, MenuRoute.DELETE. rewrite Hid.
      split; [reflexivity|]. now apply made_nothing.
    + unfold response. split; [|apply made_nothing];
        unfold MenuRoute.DELETE; rewrite Hid, Hnan, orb_true_r;
        reflexivity.
  - intros s r w' Hid Hnum Hcall.
    unfold response. split; [|apply made_these];
      unfold MenuRoute.DELETE, tryCatch, bind, await;
      rewrite Hid, Hnum, (parses_nonempty s Hnum); cbn [orb];
      rewrite Hcall; reflexivity.
Qed.

Lemma DELETE_validates_id_witness :
  (response (MenuRoute.DELETE memoryLayer (query "rice")) (start menu)
   = Returned (NextResponse_json
                 (VObj [("error", VStr "Invalid or missing menu item ID.")])
                 400)
   /\ made (MenuRoute.DELETE memoryLayer (query "rice")) (start menu) = [])
  /\ (response (MenuRoute.DELETE memoryLayer (query "7")) (start menu)
      = Returned (NextResponse_json
                    (VObj [("message",
                            VStr "Menu item deleted successfully.")])
                    200)
      /\ made (MenuRoute.DELETE memoryLayer (query "7")) (start menu)
         = [(deleteMenuItem (parseInt "7"), Returned VUndefined)])
  /\ (response (MenuRoute.DELETE memoryLayer (query spaced7)) (start menu)
      = Returned (NextResponse_json
                    (VObj [("message",
                            VStr "Menu item deleted successfully.")])
                    200)
      /\ made (MenuRoute.DELETE memoryLayer (query spaced7)) (start menu)
         = [(deleteMenuItem (parseInt spaced7), Returned VUndefined)]).
Proof.
  split; [|split].
  - apply (proj1 (@DELETE_validates_id _ memoryLayer (query "rice")
                    (start menu))).
    right. exists "rice". split; reflexivity.
  - exact (proj2 (@DELETE_validates_id _ memoryLayer (query "7")
                    (start menu))
             "7" VUndefined [] eq_refl eq_refl eq_refl).
  - exact (proj2 (@DELETE_validates_id _ memoryLayer (query spaced7)
                    (start menu))
             spaced7 VUndefined [] eq_refl eq_refl eq_refl).
Defined.

(** White space before the digits is skipped, be it ASCII or not: the id
    of [?id=%C2%A07] parses as 7, that of [?id=%20%EF%BB%BF-12px] as -12,
    and a lone no-break space does not parse. *)
Example parseInt_skips_white_space :
  parseInt spaced7 = 7%float
  /\ parseInt (String " " (String (ascii_of_nat 239)
                 (String (ascii_of_nat 187)
                    (String (ascii_of_nat 191) "-12px")))) = (-12)%float
  /\ isNaN (parseInt (String (ascii_of_nat 194)
                        (String (ascii_of_nat 160) ""))) = true
  /\ isNaN (parseInt (String (ascii_of_nat 194) "7")) = true.
Proof. repeat split; vm_compute; reflexivity. Qed.

(** C9. A POST body that lacks customerName, cashierName or salePrice
    gets status 400 from the transactions handler, and one that lacks
    item_type, name, price or premium gets status 400 from the menu
    handler; in both cases the data layer is not called. *)
Theorem POST_missing_field (World : Type)
    (dataLayer : Call -> World -> Outcome Value * World)
    (Number_ : Value -> float)
    (request : Request) (st : State World) (body : Value) :
  json request = Returned body ->
  (lacks body "customerName" \/ lacks body "cashierName"
   \/ lacks body "salePrice" ->
   response (TransactionsRoute.POST dataLayer Number_ request) st
   = Returned (NextResponse_json
                 (VObj [("error", VStr "Missing required fields")]) 400)
   /\ made (TransactionsRoute.POST dataLayer Number_ request) st = [])
  /\ (lacks body "item_type" \/ lacks body "name" \/ lacks body "price"
      \/ lacks body "premium" ->
      response (MenuRoute.POST dataLayer request) st
      = Returned (NextResponse_json
                    (VObj [("error",
                            VStr "Invalid input. All fields are required.")])
                    400)
      /\ made (MenuRoute.POST dataLayer request) st = []).
Proof.
  intros Hjson. split.
  - intros Hlacks.
    assert (Hrun : TransactionsRoute.POST dataLayer Number_ request st
                   = (Returned (NextResponse_json
                        (VObj [("error", VStr "Missing required fields")])
                        400), st)).
    { unfold TransactionsRoute.POST, tryCatch, bind, liftOutcome.
      rewrite Hjson.
      destruct Hlacks as [(Hn & Hu & Hk) | [(Hn & Hu & Hk) | (Hn & Hu & Hk)]];
        rewrite (destructure_value st Hn Hu); cbv zeta;
        rewrite ?(truthy_undefined Hk), ?(isUndefined_true Hk);
        cbn [negb orb]; rewrite ?orb_true_r; reflexivity. }
    unfold response. split; [|apply made_nothing]; now rewrite Hrun.
  - intros Hlacks.
    assert (Hrun : MenuRoute.POST dataLayer request st
                   = (Returned (NextResponse_json
                        (VObj [("error",
                                VStr "Invalid input. All fields are required.")])
                        400), st)).
    { unfold MenuRoute.POST, tryCatch, bind, liftOutcome.
      rewrite Hjson.
      destruct Hlacks
        as [(Hn & Hu & Hk) | [(Hn & Hu & Hk)
                             | [(Hn & Hu & Hk) | (Hn & Hu & Hk)]]];
        rewrite (destructure_value st Hn Hu); cbv zeta;
        rewrite ?(truthy_undefined Hk), ?(isUndefined_true Hk);
        cbn [negb orb]; rewrite ?orb_true_r; reflexivity. }
    unfold response. split; [|apply made_nothing]; now rewrite Hrun.
Qed.

Lemma POST_missing_field_witness :
  (response (TransactionsRoute.POST memoryLayer numberOf (post newSide))
     (start menu)
   = Returned (NextResponse_json
                 (VObj [("error", VStr "Missing required fields")]) 400)
   /\ made (TransactionsRoute.POST memoryLayer numberOf (post newSide))
        (start menu) = [])
  /\ (response (MenuRoute.POST memoryLayer (post sale)) (start menu)
      = Returned (NextResponse_json
                    (VObj [("error",
                            VStr "Invalid input. All fields are required.")])
                    400)
      /\ made (MenuRoute.POST memoryLayer (post sale)) (start menu) = []).
Proof.
  split.
  - apply (proj1 (@POST_missing_field _ memoryLayer numberOf (post newSide)
                    (start menu) newSide eq_refl)).
    left. repeat split; discriminate.
  - apply (proj2 (@POST_missing_field _ memoryLayer numberOf (post sale)
                    (start menu) sale eq_refl)).
    right; left. repeat split; discriminate.
Defined.

Lemma skipn_own (A : Type) (l l' : list A) :
  skipn (List.length l) (l ++ l') = l'.
Proof.
  rewrite skipn_app, skipn_all, Nat.sub_diag. reflexivity.
Qed.

(** *** Calls that throw inside a [try] block *)

Section Faithful.
Variable World : Type.
Variable dataLayer : Call -> World -> Outcome Value * World.

Lemma Faithful_silent (A : Type) (m : M World A) :
  (forall st, snd (m st) = st) -> Faithful m.
Proof.
  intros Hm st. exists []. rewrite Hm, app_nil_r.
  split; [reflexivity|]. intros c e [].
Qed.

Lemma Faithful_ret (A : Type) (a : A) : Faithful (ret a : M World A).
Proof. now apply Faithful_silent. Qed.

Lemma Faithful_liftOutcome (A : Type) (o : Outcome A) :
  Faithful (liftOutcome o : M World A).
Proof. now apply Faithful_silent. Qed.

Lemma Faithful_destructure (v : Value) :
  Faithful (destructure v : M World unit).
Proof. apply Faithful_silent. now destruct v. Qed.

Lemma Faithful_json (data : Value) (status : Z) :
  Faithful (NextResponse.json data status : M World Response).
Proof. apply Faithful_silent. now destruct data. Qed.

Lemma Faithful_await (c : Call) : Faithful (await dataLayer c).
Proof.
  intros st. unfold await.
  destruct (dataLayer c (world st)) as [o w]. exists [(c, o)].
  split; [reflexivity|].
  intros c' e [[= _ ->]|[]]. reflexivity.
Qed.

Lemma Faithful_bind (A B : Type) (m : M World A) (k : A -> M World B) :
  Faithful m -> (forall a, Faithful (k a)) -> Faithful (bind m k).
Proof.
  intros Hm Hk st. unfold bind.
  destruct (Hm st) as (l & Hl & Hthrown).
  destruct (m st) as [[a|e'] st']; simpl in *.
  - destruct (Hk a st') as (l' & Hl' & Hthrown').
    exists (l ++ l')%list. rewrite Hl', Hl, app_assoc.
    split; [reflexivity|].
    intros c e Hin. apply in_app_or in Hin as [Hin|Hin].
    + specialize (Hthrown c e Hin). discriminate Hthrown.
    + exact (Hthrown' c e Hin).
  - exists l. split; [assumption|].
    intros c e Hin. specialize (Hthrown c e Hin).
    now injection Hthrown as ->.
Qed.

Lemma Faithful_if (A : Type) (b : bool) (m1 m2 : M World A) :
  Faithful m1 -> Faithful m2 -> Faithful (if b then m1 else m2).
Proof. now destruct b. Qed.

(** A [catch] block that only logs and answers turns the error of a
    failed call into its answer. *)
Lemma tryCatch_answers (m : M World Response)
    (h : Value -> M World Response) (answer : Value -> Response) :
  Faithful m ->
  (forall e st, fst (h e st) = Returned (answer e)
                /\ calls (snd (h e st)) = calls st) ->
  forall st c e,
    In (c, Thrown e) (made (tryCatch m h) st) ->
    response (tryCatch m h) st = Returned (answer e).
Proof.
  intros Hm Hh st c e. unfold made, response, tryCatch.
  destruct (Hm st) as (l & Hl & Hthrown).
  destruct (m st) as [[a|e'] st']; simpl in *.
  - rewrite Hl, skipn_own. intros Hin.
    specialize (Hthrown c e Hin). discriminate Hthrown.
  - destruct (Hh e' st') as [-> ->]. rewrite Hl, skipn_own.
    intros Hin. specialize (Hthrown c e Hin). now injection Hthrown as ->.
Qed.

End Faithful.

Create HintDb faithful.

#[local] Hint Resolve Faithful_ret Faithful_liftOutcome Faithful_destructure
  Faithful_json Faithful_await Faithful_bind Faithful_if : faithful.

Ltac faithful :=
  cbv zeta;
  repeat match goal with
         | |- Faithful (match ?x with _ => _ end) => destruct x
         end;
  auto 12 with faithful.

(** C8, as amended. In each of the six handlers, when the call to the
    data layer throws, the handler responds with status 500 and a body
    with an error message; the transactions handlers add the caught error
    as [details], the menu handlers send the message alone. *)
Theorem handlers_answer_500 (World : Type)
    (dataLayer : Call -> World -> Outcome Value * World)
    (Number_ : Value -> float) (ep : Endpoint)
    (request : Request) (st : State World) (c : Call) (e : Value) :
  In (c, Thrown e) (made (handle dataLayer Number_ ep request) st) ->
  exists message,
    response (handle dataLayer Number_ ep request) st
    = Returned
        (NextResponse_json
           (VObj (("error", VStr message)
                  :: (if inTransactions ep then [("details", e)] else [])))
           500).
Proof.
  destruct ep; cbn [handle inTransactions app];
    unfold MenuRoute.GET, MenuRoute.POST, MenuRoute.PUT, MenuRoute.DELETE,
      MenuRoute.error_, TransactionsRoute.GET, TransactionsRoute.POST.
  1-3: intros Hin; eexists;
    refine (@tryCatch_answers _ _ _ (fun _ => NextResponse_json _ 500)
              _ _ _ _ _ Hin);
    [faithful | intros; split; reflexivity].
  2-3: intros Hin; eexists;
    refine (@tryCatch_answers _ _ _
              (fun e => NextResponse_json
                          (VObj [("error", VStr _); ("details", e)]) 500)
              _ _ _ _ _ Hin);
    [faithful | intros; split; reflexivity].
  destruct (searchParams_get (searchParams request) "id") as [s|];
    [destruct (String.eqb s "" || isNaN (parseInt s))|];
    try (rewrite made_nothing by reflexivity; intros []).
  intros Hin; eexists;
    refine (@tryCatch_answers _ _ _ (fun _ => NextResponse_json _ 500)
              _ _ _ _ _ Hin);
    [faithful | intros; split; reflexivity].
Qed.

Lemma handlers_answer_500_witness :
  (exists message,
      response (MenuRoute.PUT (failingLayer connectionLost)
                  (post (VObj [("id", VNum 7); ("price", VNum 5)])))
        (start tt)
      = Returned (NextResponse_json (VObj [("error", VStr message)]) 500))
  /\ (exists message,
         response (TransactionsRoute.POST (failingLayer connectionLost)
                     numberOf (post sale))
           (start tt)
         = Returned (NextResponse_json
                       (VObj [("error", VStr message);
                              ("details", connectionLost)])
                       500)).
Proof.
  split.
  - exact (@handlers_answer_500 _ (failingLayer connectionLost) numberOf
             MenuPUT (post (VObj [("id", VNum 7); ("price", VNum 5)]))
             (start tt)
             (updateMenuItem (VNum 7) (VObj [("price", VNum 5)]) (VArr []))
             connectionLost (or_introl eq_refl)).
  - exact (@handlers_answer_500 _ (failingLayer connectionLost) numberOf
             TransactionsPOST (post sale) (start tt)
             (addTransaction (transactionOf numberOf sale))
             connectionLost (or_introl eq_refl)).
Defined.

(** C8 as stated fails on the menu route: the call throws, and the body
    of the 500 response is the message alone, without the error. *)
Lemma menu_GET_answer_omits_error :
  In (getAllMenuItems, Thrown connectionLost)
     (made (MenuRoute.GET (failingLayer connectionLost) noQuery) (start tt))
  /\ response (MenuRoute.GET (failingLayer connectionLost) noQuery) (start tt)
     = Returned (NextResponse_json
                   (VObj [("error", VStr "Failed to fetch menu items.")])
                   500)
  /\ ~ embeds connectionLost
         (VObj [("error", VStr "Failed to fetch menu items.")]).
Proof.
  split; [now left|]. split; [reflexivity|].
  intros [k Hk]. cbv [getProp assoc connectionLost] in Hk.
  destruct (String.eqb "error" k); discriminate Hk.
Qed.

End RoutesSpec.

(* ================================================================= *)
(** ** Properties of what the meal builder renders *)

Module MealBuilderViewSpec.
Import Types MealBuilder MealBuilderView MealBuilderSpec.

Ltac by_size size :=
  unfold getMealRequirements in *;
  destruct (String.eqb size "bowl") eqn:Ebowl;
    [|destruct (String.eqb size "plate") eqn:Eplate;
      [|destruct (String.eqb size "bigger plate") eqn:Ebigger]].

(** X1. The alert "Please select your ..." is shown exactly when the
    "Add to Order" button is disabled. *)
Theorem alert_iff_addToOrder_disabled (size : string) (meal : MealInProgress) :
  alert size meal <> None <-> addToOrderDisabled size meal = true.
Proof.
  unfold alert, getRequiredItems, addToOrderDisabled, getProgress, filledSlots.
  by_requirements size; rewrite R; by_slots meal; vm_compute;
    (split; [intros H; first [reflexivity | now elim H]
            | intros H; first [discriminate H | discriminate]]).
Qed.

(** X2. The alert names one label per required slot that is still empty:
    the labels and the filled required slots add up to the required
    total. *)
Theorem getRequiredItems_counts_empty_slots (size : string)
    (meal : MealInProgress) :
  Z.of_nat (List.length (getRequiredItems size meal)) + filledSlots size meal
  = sides (getMealRequirements size) + entrees (getMealRequirements size).
Proof.
  unfold getRequiredItems, filledSlots.
  by_requirements size; rewrite R; by_slots meal; reflexivity.
Qed.

(** X3. The heading reads "bowl (1 side, 1 entrée)", "plate (1 side,
    2 entrées)" and "bigger plate (2 sides, 3 entrées)"; any other size is
    announced with one side and one entree. *)
Theorem getMealDescription_text (size : string) :
  getMealDescription "bowl" = "bowl (1 side, 1 entrée)"
  /\ getMealDescription "plate" = "plate (1 side, 2 entrées)"
  /\ getMealDescription "bigger plate" = "bigger plate (2 sides, 3 entrées)"
  /\ (size <> "bowl" -> size <> "plate" -> size <> "bigger plate" ->
      getMealDescription size = size ++ " (1 side, 1 entrée)").
Proof.
  repeat split; try reflexivity.
  intros Hb Hp Hg. unfold getMealDescription.
  rewrite (getMealRequirements_default Hb Hp Hg). reflexivity.
Qed.

Lemma holds_otherThan (slot : option MenuItem) (item m : MenuItem) :
  slot = Some m -> holds slot item = negb (otherThan item m).
Proof. intros ->. unfold holds, otherThan. now rewrite negb_involutive. Qed.

(** X4. In a meal that fills no slot beyond the quota of its size, a
    highlighted item (variant "default") is never disabled: the customer
    can always reach a selected item again. *)
Theorem highlighted_not_disabled (size : string) (meal : MealInProgress)
    (item : MenuItem) :
  withinQuota size meal = meal ->
  (sideVariant meal item = "default" -> isSideDisabled size meal item = false)
  /\ (entreeVariant meal item = "default" ->
      isEntreeDisabled size meal item = false).
Proof.
  unfold withinQuota, sideVariant, entreeVariant, isSideDisabled,
    isEntreeDisabled, holds, otherThan.
  intros Hquota. by_size size; by_slots meal; cbn in *;
    try discriminate Hquota; clear Hquota;
    repeat match goal with
           | |- context [?a =? ?b] =>
               destruct (a =? b) eqn:?; cbn
           end;
    (split; intros H; first [reflexivity | discriminate H]).
Qed.

Lemma highlighted_not_disabled_witness :
  (sideVariant
     {| side1 := Some (MealBuilder.item 1 "side"); side2 := None;
        entree1 := None; entree2 := None; entree3 := None |}
     (MealBuilder.item 1 "side") = "default" ->
   isSideDisabled "bowl"
     {| side1 := Some (MealBuilder.item 1 "side"); side2 := None;
        entree1 := None; entree2 := None; entree3 := None |}
     (MealBuilder.item 1 "side") = false)
  /\ (entreeVariant
        {| side1 := Some (MealBuilder.item 1 "side"); side2 := None;
           entree1 := None; entree2 := None; entree3 := None |}
        (MealBuilder.item 1 "side") = "default" ->
      isEntreeDisabled "bowl"
        {| side1 := Some (MealBuilder.item 1 "side"); side2 := None;
           entree1 := None; entree2 := None; entree3 := None |}
        (MealBuilder.item 1 "side") = false).
Proof.
  exact (@highlighted_not_disabled "bowl" _ (MealBuilder.item 1 "side")
           eq_refl).
Defined.

(** Beyond the quota the two can part: a bowl whose second side slot holds
    the item shows it highlighted and disabled at once. *)
Example highlighted_and_disabled_beyond_quota :
  let meal :=
    {| side1 := Some (MealBuilder.item 1 "side");
       side2 := Some (MealBuilder.item 2 "side");
       entree1 := None; entree2 := None; entree3 := None |} in
  sideVariant meal (MealBuilder.item 2 "side") = "default"
  /\ isSideDisabled "bowl" meal (MealBuilder.item 2 "side") = true.
Proof. split; reflexivity. Qed.

(** A complete meal has every required slot of each category filled. *)
Lemma complete_filled (size : string) (meal : MealInProgress) (c : Category) :
  addToOrderDisabled size meal = false ->
  Forall filled (requiredSlots size c meal).
Proof.
  unfold addToOrderDisabled, getProgress, filledSlots, requiredSlots.
  by_requirements size; rewrite R; by_slots meal; destruct c;
    intros H;
    first [ solve [vm_compute in H; discriminate H]
          | solve [cbn; repeat constructor; discriminate] ].
Qed.

(** Among filled slots, an item is either blocked by all of them or holds
    one of them. *)
Lemma not_blocked_occupies (item : MenuItem)
    (slots : list (option MenuItem)) :
  Forall filled slots -> blockedBy item slots = false ->
  Exists (occupiedBy item) slots.
Proof.
  induction slots as [|[m|] slots IH]; simpl; intros Hfilled Hblocked.
  - discriminate Hblocked.
  - unfold otherThan in Hblocked at 1.
    destruct (Z.eqb_spec (id m) (id item)) as [Heq|Hne].
    + left. now exists m.
    + right. apply IH; [now inversion Hfilled|exact Hblocked].
  - inversion Hfilled as [|? ? Hnone]. now elim Hnone.
Qed.

(** X5. Once the meal is complete, on each of the three sizes, the buttons
    that stay enabled are exactly those of the chosen items: every other
    side and entree is disabled. *)
Theorem complete_meal_blocks_others (sz : SizeEnum) (meal : MealInProgress)
    (item : MenuItem) (c : Category) :
  addToOrderDisabled (sizeString sz) meal = false ->
  category item = Some c ->
  (selectionDisabled (sizeString sz) meal item = Some false
   <-> Exists (occupiedBy item) (requiredSlots (sizeString sz) c meal))
  /\ (selectionDisabled (sizeString sz) meal item = Some true
      <-> ~ Exists (occupiedBy item) (requiredSlots (sizeString sz) c meal)).
Proof.
  intros Hcomplete Hc.
  pose proof (complete_filled c Hcomplete) as Hfilled.
  assert (Hb : selectionDisabled (sizeString sz) meal item
               = Some (blockedBy item (requiredSlots (sizeString sz) c meal))).
  { unfold category in Hc. unfold selectionDisabled.
    destruct (String.eqb (item_type item) "side").
    - injection Hc as <-. now rewrite isSideDisabled_slots.
    - destruct (String.eqb (item_type item) "entree"); [|discriminate Hc].
      injection Hc as <-. now rewrite isEntreeDisabled_slots. }
  rewrite Hb.
  destruct (blockedBy item (requiredSlots (sizeString sz) c meal)) eqn:Hblocked.
  - apply blockedBy_iff in Hblocked as [_ Hfree].
    split; split; intros H; try discriminate H; try reflexivity;
      try assumption; try contradiction.
  - pose proof (not_blocked_occupies item Hfilled Hblocked) as Hocc.
    split; split; intros H; try discriminate H; try reflexivity;
      try assumption; try contradiction.
Qed.

Lemma complete_meal_blocks_others_witness :
  let meal :=
    {| side1 := Some (MealBuilder.item 1 "side"); side2 := None;
       entree1 := Some (MealBuilder.item 2 "entree"); entree2 := None;
       entree3 := None |} in
  (selectionDisabled "bowl" meal (MealBuilder.item 3 "entree") = Some false
   <-> Exists (occupiedBy (MealBuilder.item 3 "entree"))
         (requiredSlots "bowl" Entree meal))
  /\ (selectionDisabled "bowl" meal (MealBuilder.item 3 "entree") = Some true
      <-> ~ Exists (occupiedBy (MealBuilder.item 3 "entree"))
              (requiredSlots "bowl" Entree meal)).
Proof.
  exact (@complete_meal_blocks_others bowl
           {| side1 := Some (MealBuilder.item 1 "side"); side2 := None;
              entree1 := Some (MealBuilder.item 2 "entree"); entree2 := None;
              entree3 := None |}
           (MealBuilder.item 3 "entree") Entree eq_refl eq_refl).
Defined.

(** X6. The two cards show one button per menu item of type 'side' and
    of type 'entree', in menu order; an item of any other type gets no
    button; each button carries the [disabled] flag of its item. *)
Theorem buttons_of_menu (size : string) (meal : MealInProgress)
    (menuItems : list MenuItem) :
  map onClick (sideButtons size meal menuItems)
  = filter (fun i => String.eqb (item_type i) "side") menuItems
  /\ map onClick (entreeButtons size meal menuItems)
     = filter (fun i => String.eqb (item_type i) "entree") menuItems
  /\ Forall (fun b => selectionDisabled size meal (onClick b) = Some (disabled b))
       (sideButtons size meal menuItems ++ entreeButtons size meal menuItems)
  /\ (forall i, In i menuItems -> category i = None ->
      ~ In i (map onClick (sideButtons size meal menuItems
                           ++ entreeButtons size meal menuItems))).
Proof.
  unfold sideButtons, entreeButtons. repeat split.
  - rewrite map_map. apply map_id.
  - rewrite map_map. apply map_id.
  - apply Forall_app. split; apply Forall_forall; intros b Hb;
      apply in_map_iff in Hb as (i & <- & Hi);
      apply filter_In in Hi as [_ Htype]; cbn [onClick disabled];
      unfold selectionDisabled.
    + now rewrite Htype.
    + destruct (String.eqb (item_type i) "side") eqn:Hside.
      * apply String.eqb_eq in Hside, Htype. rewrite Hside in Htype.
        discriminate Htype.
      * now rewrite Htype.
  - intros i _ Hcat Hin. unfold category in Hcat.
    rewrite map_app, !map_map, !map_id, in_app_iff, !filter_In in Hin.
    destruct Hin as [[_ Htype]|[_ Htype]]; rewrite Htype in Hcat;
      [|destruct (String.eqb (item_type i) "side")]; discriminate Hcat.
Qed.

(** X7. The summary beside the button lists every filled slot, also one
    beyond the quota: it never has fewer lines than the progress counts,
    and has as many when no slot beyond the quota is filled. *)
Theorem summary_lists_filled_slots (size : string) (meal : MealInProgress) :
  filledSlots size meal <= Z.of_nat (List.length (summary meal))
  /\ (withinQuota size meal = meal ->
      filledSlots size meal = Z.of_nat (List.length (summary meal))).
Proof.
  unfold filledSlots, withinQuota, summary.
  by_requirements size; rewrite R; by_slots meal; cbn;
    (split; [lia | intros H; first [reflexivity | discriminate H]]).
Qed.

End MealBuilderViewSpec.

(* ================================================================= *)
(** ** Properties of every handler run *)

Module RunsSpec.
Import JS Handler Routes Runs RoutesSpec.

Section AnyDataLayer.
Variable World : Type.
Variable dataLayer : Call -> World -> Outcome Value * World.
Variable Number_ : Value -> float.

Ltac run_step :=
  match goal with
  | |- context [searchParams_get ?p ?k] =>
      destruct (searchParams_get p k) as [?s|]
  | |- context [String.eqb ?s "" || isNaN ?x] =>
      destruct (String.eqb s "" || isNaN x)
  | |- context [String.eqb ?s ""] => destruct (String.eqb s "")
  | |- context [dataLayer ?c ?w] =>
      let Hcall := fresh "Hcall" in
      destruct (dataLayer c w) as [[?v|?e] ?w] eqn:Hcall
  | |- context [truthy ?v] =>
      is_var v; let Htruthy := fresh "Htruthy" in
      destruct (truthy v) eqn:Htruthy; cbn [negb]
  | |- context [match ?v with VUndefined => _ | _ => _ end] =>
      is_var v; destruct v; try discriminate
  | |- context [if ?b then _ else _] => destruct b
  end.

Ltac reduce_run :=
  cbv beta iota delta [NextResponse.json destructure throw ret];
  cbn [world calls console fst snd].

Ltac unreadable_body :=
  first [ left; reflexivity
        | right; split; [left; reflexivity | reflexivity]
        | right; split; [right; reflexivity | reflexivity] ].

(** Every run of every handler ends in one of the five ways. *)
Lemma handle_runs (ep : Endpoint) (request : Request) (st : State World) :
  Run dataLayer ep request st (handle dataLayer Number_ ep request st).
Proof.
  destruct request as [params [jbody|e]], st as [w cs con], ep;
    cbn [handle];
    unfold MenuRoute.GET, MenuRoute.POST, MenuRoute.PUT, MenuRoute.DELETE,
      MenuRoute.error_, TransactionsRoute.GET, TransactionsRoute.POST,
      tryCatch, bind, await, liftOutcome, console_error;
    cbn [searchParams json world calls console].
  all: try match goal with
           | |- context [destructure ?b] => is_var b; destruct b
           end.
  all: reduce_run.
  all: repeat (run_step; reduce_run).
  all: first
         [ solve [apply run_rejected; reflexivity]
         | solve [eapply run_answered;
                  [ eassumption | reflexivity | cbn; tauto
                  | let H := fresh in
                    intros H; first [discriminate H | discriminate] ]]
         | match goal with
           | H : dataLayer ?c _ = (Thrown ?e, ?w') |-
               Run _ ?ep ?request ?st _ =>
               exact (@run_failed _ dataLayer ep request st c e w' H eq_refl)
           | H : dataLayer ?c _ = (Returned VUndefined, ?w') |-
               Run _ ?ep ?request ?st _ =>
               exact (@run_unserialisable _ dataLayer ep request st c w' H
                        eq_refl eq_refl)
           | |- Run _ ?ep ?request ?st
                  (_, {| world := _; calls := _;
                         console := _ ++ [[_; ?e]] |}) =>
               refine (@run_unreadable _ dataLayer ep request st e eq_refl _);
               unreadable_body
           end ].
Qed.

Ltac by_run ep request st :=
  unfold response, made;
  destruct (handle_runs ep request st)
    as [r' Hval Hstatus | e Hreads Hunreadable
        | c v w' r' Hcall Hown Hstatus Hsent | c w' Hcall Hown Hsent
        | c e w' Hcall Hown];
  cbn [fst snd logged called calls console world answer500
       NextResponse_json status];
  rewrite ?skipn_own, ?skipn_all.

(** X8. No handler lets an exception escape: every request gets a
    response, with status 500, or 400 from a handler that validates, or a
    status of the handler's own (200 or 404 for GET and PUT, 201 for the
    menu POST, 200 for DELETE and the transactions POST). *)
Theorem handlers_always_answer (ep : Endpoint) (request : Request)
    (st : State World) :
  exists r,
    response (handle dataLayer Number_ ep request) st = Returned r
    /\ (status r = 500
        \/ (status r = 400 /\ validates ep = true)
        \/ In (status r) (answers ep)).
Proof.
  by_run ep request st; eexists; (split; [reflexivity|]); cbn; tauto.
Qed.

(** X9. A handler makes at most one call to the data layer, and only to
    its own function: the GET handlers only read, and a run without a call
    leaves the data untouched. *)
Theorem handlers_call_once (ep : Endpoint) (request : Request)
    (st : State World) :
  (List.length (made (handle dataLayer Number_ ep request) st) <= 1)%nat
  /\ Forall (fun call => ownCall ep (fst call) = true)
       (made (handle dataLayer Number_ ep request) st)
  /\ (validates ep = false ->
      Forall (fun call => readOnly (fst call) = true)
        (made (handle dataLayer Number_ ep request) st))
  /\ (made (handle dataLayer Number_ ep request) st = [] ->
      world (snd (handle dataLayer Number_ ep request st)) = world st).
Proof.
  by_run ep request st; cbn [List.length];
    (split; [lia|]); (split; [repeat constructor; assumption|]);
    (split; [|first [reflexivity | discriminate]]);
    intros Hget; repeat constructor; cbn [fst];
    destruct ep, c; first [reflexivity | discriminate].
Qed.

Lemma answers_not_500 (ep : Endpoint) (z : Z) :
  In z (answers ep) -> z <> 500 /\ z <> 400.
Proof. destruct ep; cbn; intros H; lia. Qed.

(** X10. A handler writes to the console exactly when it answers 500. It
    then answers with its own failure message (the transactions handlers
    with the error as [details]) and logs one line, its label and the
    error its [catch] block received: the error the call to the data layer
    threw, or the TypeError of sending the [undefined] a call returned, or
    the error of reading the body. With any other status the console is
    untouched. *)
Theorem handlers_log_iff_500 (ep : Endpoint) (request : Request)
    (st : State World) :
  exists r,
    response (handle dataLayer Number_ ep request) st = Returned r
    /\ (status r = 500 ->
        exists e,
          caught ep request (made (handle dataLayer Number_ ep request) st) e
          /\ r = answer500 ep (failureText ep) e
          /\ console (snd (handle dataLayer Number_ ep request st))
             = (console st ++ [[VStr (logLabel ep); e]])%list)
    /\ (status r <> 500 ->
        console (snd (handle dataLayer Number_ ep request st))
        = console st).
Proof.
  by_run ep request st; eexists; (split; [reflexivity|]); cbn [status].
  - split; [lia|reflexivity].
  - split; [|intros H; now elim H]. intros _. exists e.
    cbn [caught]. now repeat split.
  - apply answers_not_500 in Hstatus as [H500 _].
    split; [intros H; now elim H500|reflexivity].
  - split; [|intros H; now elim H]. intros _. exists TypeError.
    cbn [caught]. now repeat split.
  - split; [|intros H; now elim H]. intros _. exists e.
    cbn [caught]. now repeat split.
Qed.

(** X11. A 400 answer leaves everything as it was: no call was made, the
    data is untouched and nothing was logged. *)
Theorem rejected_request_changes_nothing (ep : Endpoint) (request : Request)
    (st : State World) (r : Response) :
  response (handle dataLayer Number_ ep request) st = Returned r ->
  status r = 400 ->
  snd (handle dataLayer Number_ ep request st) = st.
Proof.
  by_run ep request st; intros [= ?]; subst; cbn [status]; intros H400.
  - reflexivity.
  - discriminate H400.
  - apply answers_not_500 in Hstatus as [_ H]. now elim H.
  - discriminate H400.
  - discriminate H400.
Qed.

(** X12. GET and DELETE read no body, so they answer 500 in two cases
    only: their call to the data layer threw, or it was the list function
    and it returned [undefined], which [NextResponse.json] cannot send. *)
Theorem failure_is_a_failed_call (ep : Endpoint) (request : Request)
    (st : State World) (r : Response) :
  readsBody ep = false ->
  response (handle dataLayer Number_ ep request) st = Returned r ->
  (status r = 500
   <-> exists c,
         (exists e,
             made (handle dataLayer Number_ ep request) st = [(c, Thrown e)])
         \/ ((c = getAllMenuItems \/ c = getTransactions)
             /\ made (handle dataLayer Number_ ep request) st
                = [(c, Returned VUndefined)])).
Proof.
  intros Hbody. by_run ep request st; intros [= ?]; subst; cbn [status].
  - split; [lia|]. intros (c & [(e & H) | (_ & H)]); discriminate H.
  - rewrite Hbody in Hreads. discriminate Hreads.
  - apply answers_not_500 in Hstatus as [H500 _].
    split; [intros H; now elim H500|].
    intros (c' & [(e & H) | (Hc & H)]); [discriminate H|].
    injection H as <- ->. elim Hsent; [|reflexivity].
    now destruct Hc as [-> | ->].
  - split; [|reflexivity]. intros _. exists c. right.
    split; [|reflexivity].
    destruct ep, c; try discriminate; auto.
  - split; [|reflexivity]. intros _. exists c. left. now exists e.
Qed.

End AnyDataLayer.



Lemma rejected_request_changes_nothing_witness :
  snd (handle memoryLayer numberOf MenuDELETE (query "rice") (start menu))
  = start menu.
Proof.
  exact (@rejected_request_changes_nothing _ memoryLayer numberOf MenuDELETE
           (query "rice") (start menu) _ eq_refl eq_refl).
Defined.

Lemma failure_is_a_failed_call_witness :
  (status (answer500 MenuGET "Failed to fetch menu items." connectionLost)
   = 500
   <-> exists c,
         (exists e,
             made (handle (failingLayer connectionLost) numberOf MenuGET
                     noQuery) (start tt)
             = [(c, Thrown e)])
         \/ ((c = getAllMenuItems \/ c = getTransactions)
             /\ made (handle (failingLayer connectionLost) numberOf MenuGET
                        noQuery) (start tt)
                = [(c, Returned VUndefined)]))
  /\ (status (NextResponse_json (VArr [friedRice]) 200) = 500
      <-> exists c,
            (exists e,
                made (handle memoryLayer numberOf MenuGET noQuery) (start menu)
                = [(c, Thrown e)])
            \/ ((c = getAllMenuItems \/ c = getTransactions)
                /\ made (handle memoryLayer numberOf MenuGET noQuery)
                     (start menu)
                   = [(c, Returned VUndefined)])).
Proof.
  split.
  - exact (@failure_is_a_failed_call _ (failingLayer connectionLost) numberOf
             MenuGET noQuery (start tt) _ eq_refl eq_refl).
  - exact (@failure_is_a_failed_call _ memoryLayer numberOf
             MenuGET noQuery (start menu) _ eq_refl eq_refl).
Defined.

End RunsSpec.

(* ================================================================= *)
(** ** Validation, update and list paths of the routes *)

Module RoutesMoreSpec.
Import JS Handler Routes Runs RoutesSpec.

Lemma isUndefined_iff (v : Value) : isUndefined v = true <-> v = VUndefined.
Proof. destruct v; simpl; split; congruence. Qed.

(** Removing the two keys of the pattern leaves every other property. *)
Lemma assoc_rest (k : string) (props : list (string * Value)) :
  assoc k
    (filter (fun kv => negb (String.eqb (fst kv) "id"
                             || String.eqb (fst kv) "ingredents")) props)
  = if String.eqb k "id" || String.eqb k "ingredents" then None
    else assoc k props.
Proof.
  induction props as [|[k' v] props IH]; simpl.
  - now destruct (String.eqb k "id" || String.eqb k "ingredents").
  - destruct (String.eqb_spec k' k) as [->|Hne].
    + destruct (String.eqb k "id" || String.eqb k "ingredents") eqn:Hk;
        simpl; [exact IH|]. rewrite String.eqb_refl.
      reflexivity.
    + destruct (String.eqb k' "id" || String.eqb k' "ingredents"); simpl.
      * exact IH.
      * apply String.eqb_neq in Hne. rewrite Hne. exact IH.
Qed.

(** X13. The updates handed to [updateMenuItem] are the body without its
    [id] and without the misspelt [ingredents]; every other property,
    [ingredients] included, is passed on as it came. *)
Theorem restOf_keeps_all_but_id (props : list (string * Value)) (k : string) :
  getProp (MenuRoute.restOf (VObj props)) k
  = if String.eqb k "id" || String.eqb k "ingredents" then VUndefined
    else getProp (VObj props) k.
Proof.
  unfold MenuRoute.restOf. cbn [getProp ownProps]. rewrite assoc_rest.
  now destruct (String.eqb k "id" || String.eqb k "ingredents").
Qed.

Section AnyDataLayer.
Variable World : Type.
Variable dataLayer : Call -> World -> Outcome Value * World.
Variable Number_ : Value -> float.

(** X14. PUT answers 400 without a call when the body has no truthy id;
    otherwise it calls [updateMenuItem] once with the id, the rest of the
    body and its ingredients (an empty list when there are none), and
    answers 404 when that finds nothing and 200 with the item otherwise. *)
Theorem PUT_updates (request : Request) (st : State World) (body : Value) :
  json request = Returned body -> body <> VNull -> body <> VUndefined ->
  let id := getProp body "id" in
  let updates := MenuRoute.restOf body in
  let call :=
    updateMenuItem id updates
      (or_else (getProp updates "ingredients") (VArr [])) in
  (truthy id = false ->
   MenuRoute.PUT dataLayer request st
   = (Returned (NextResponse_json
                  (VObj [("error",
                          VStr "ID is required to update the menu item.")])
                  400), st))
  /\ (truthy id = true ->
      forall v w',
        dataLayer call (world st) = (Returned v, w') ->
        MenuRoute.PUT dataLayer request st
        = (Returned
             (if truthy v then NextResponse_json v 200
              else NextResponse_json
                     (VObj [("error", VStr "Menu item not found.")]) 404),
           called st call (Returned v) w')).
Proof.
  intros Hjson Hnull Hundef id updates call. subst id updates call.
  unfold MenuRoute.PUT, MenuRoute.error_, tryCatch, bind, liftOutcome.
  rewrite Hjson, (destructure_value st Hnull Hundef). cbv zeta.
  split.
  - intros ->. reflexivity.
  - intros -> v w' Hcall. cbn [negb]. unfold await. rewrite Hcall.
    destruct (truthy v) eqn:Hv; cbn [negb]; [|reflexivity].
    rewrite (json_value _ _ (truthy_defined Hv)). reflexivity.
Qed.

(** X15. The POST handlers answer 400 exactly for the bodies their
    validation refuses: an empty name is refused like a missing one, while
    a price that is 0 or null is let through. *)
Theorem POST_rejects_iff_invalid (request : Request) (st : State World)
    (body : Value) :
  json request = Returned body -> body <> VNull -> body <> VUndefined ->
  (forall r, response (MenuRoute.POST dataLayer request) st = Returned r ->
             (status r = 400 <-> ~ validMenuItem body))
  /\ (forall r,
         response (TransactionsRoute.POST dataLayer Number_ request) st
         = Returned r ->
         (status r = 400 <-> ~ validTransaction body)).
Proof.
  intros Hjson Hnull Hundef. unfold response. split; intros r.
  - unfold MenuRoute.POST, MenuRoute.error_, tryCatch, bind, liftOutcome,
      await, validMenuItem.
    rewrite Hjson, (destructure_value st Hnull Hundef). cbv zeta.
    destruct (truthy (getProp body "item_type")) eqn:Htype;
      [destruct (truthy (getProp body "name")) eqn:Hname;
       [destruct (isUndefined (getProp body "price")) eqn:Hprice;
        [|destruct (isUndefined (getProp body "premium")) eqn:Hpremium]|]|];
      cbn [negb orb].
    5: { intros [= <-]. split; [|reflexivity]. intros _ H.
         destruct H as (_ & _ & H & _). discriminate H. }
    4: { intros [= <-]. split; [|reflexivity]. intros _ H.
         destruct H as (_ & _ & _ & H & _). discriminate H. }
    1: { intros [= <-]. split; [|reflexivity]. intros _ H.
         apply isUndefined_iff in Hprice. now destruct H as (_ & _ & _ & _ & H & _). }
    1: { intros [= <-]. split; [|reflexivity]. intros _ H.
         apply isUndefined_iff in Hpremium.
         now destruct H as (_ & _ & _ & _ & _ & H). }
    destruct (dataLayer _ (world st)) as [[[]|e] w']; intros [= <-];
      (split; [discriminate|]); intros H; elim H; repeat split; trivial;
      intros Hu; apply isUndefined_iff in Hu; congruence.
  - unfold TransactionsRoute.POST, tryCatch, bind, liftOutcome, await,
      validTransaction.
    rewrite Hjson, (destructure_value st Hnull Hundef). cbv zeta.
    destruct (truthy (getProp body "customerName")) eqn:Hcustomer;
      [destruct (truthy (getProp body "cashierName")) eqn:Hcashier;
       [destruct (isUndefined (getProp body "salePrice")) eqn:Hprice|]|];
      cbn [negb orb].
    4: { intros [= <-]. split; [|reflexivity]. intros _ H.
         destruct H as (_ & _ & H & _). discriminate H. }
    3: { intros [= <-]. split; [|reflexivity]. intros _ H.
         destruct H as (_ & _ & _ & H & _). discriminate H. }
    1: { intros [= <-]. split; [|reflexivity]. intros _ H.
         apply isUndefined_iff in Hprice. now destruct H as (_ & _ & _ & _ & H). }
    destruct (dataLayer _ (world st)) as [[[]|e] w']; intros [= <-];
      (split; [discriminate|]); intros H; elim H; repeat split; trivial;
      intros Hu; apply isUndefined_iff in Hu; congruence.
Qed.

(** X16. Without an id, or with an empty one, GET calls the list
    function alone and answers 200 with what it returned, falsy or not:
    the list path has no 404. Only [undefined] cannot be sent: it ends in
    the 500 answer, with the TypeError logged. *)
Theorem GET_lists_all (request : Request) (st : State World) :
  searchParams_get (searchParams request) "id" = None
  \/ searchParams_get (searchParams request) "id" = Some "" ->
  (forall v w',
      dataLayer getAllMenuItems (world st) = (Returned v, w') ->
      (v <> VUndefined ->
       MenuRoute.GET dataLayer request st
       = (Returned (NextResponse_json v 200),
          called st getAllMenuItems (Returned v) w'))
      /\ (v = VUndefined ->
          MenuRoute.GET dataLayer request st
          = (Returned (answer500 MenuGET "Failed to fetch menu items."
                         TypeError),
             logged (called st getAllMenuItems (Returned v) w')
               [VStr "Error fetching menu items:"; TypeError])))
  /\ (forall v w',
         dataLayer getTransactions (world st) = (Returned v, w') ->
         (v <> VUndefined ->
          TransactionsRoute.GET dataLayer request st
          = (Returned (NextResponse_json v 200),
             called st getTransactions (Returned v) w'))
         /\ (v = VUndefined ->
             TransactionsRoute.GET dataLayer request st
             = (Returned (answer500 TransactionsGET
                            "Failed to fetch transactions" TypeError),
                logged (called st getTransactions (Returned v) w')
                  [VStr "Error in transactions GET route:"; TypeError]))).
Proof.
  intros Hid. split; intros v w' Hcall.
  - rewrite (menu_GET_list dataLayer request st Hid Hcall).
    split; [intros Hv; destruct v; [now elim Hv | reflexivity ..]
           | intros ->; reflexivity].
  - rewrite (transactions_GET_list dataLayer request st Hid Hcall).
    split; [intros Hv; destruct v; [now elim Hv | reflexivity ..]
           | intros ->; reflexivity].
Qed.

(** X17. When the body cannot be read (the request's [json()] rejects, or
    the body is the JSON [null]), POST and PUT answer 500 without calling
    the data layer, and log the error; the transactions POST returns the
    error as [details]. *)
Theorem unreadable_body_is_500 (ep : Endpoint) (request : Request)
    (st : State World) (e : Value) :
  readsBody ep = true ->
  json request = Thrown e
  \/ (json request = Returned VNull /\ e = TypeError) ->
  exists message line,
    handle dataLayer Number_ ep request st
    = (Returned (answer500 ep message e), logged st [VStr line; e]).
Proof.
  intros Hreads Hjson.
  destruct ep; try discriminate Hreads; cbn [handle];
    unfold MenuRoute.POST, MenuRoute.PUT, TransactionsRoute.POST,
      tryCatch, bind, liftOutcome;
    destruct Hjson as [-> | [-> ->]]; do 2 eexists; reflexivity.
Qed.

(** X18. Of a valid body the transactions POST hands exactly seven fields
    to [addTransaction], whatever else the body holds: the two names as
    they came, the sale price as a number, and the four counts, each 0
    when the body leaves it out. *)
Theorem addTransaction_fields (request : Request) (st : State World)
    (body : Value) :
  json request = Returned body -> validTransaction body ->
  exists props o,
    made (TransactionsRoute.POST dataLayer Number_ request) st
    = [(addTransaction (VObj props), o)]
    /\ map fst props
       = ["customerName"; "cashierName"; "salePrice"; "items"; "meals";
          "appetizers"; "drinks"]
    /\ assoc "customerName" props = Some (getProp body "customerName")
    /\ assoc "cashierName" props = Some (getProp body "cashierName")
    /\ assoc "salePrice" props
       = Some (VNum (Number_ (getProp body "salePrice")))
    /\ (forall k, In k ["items"; "meals"; "appetizers"; "drinks"] ->
        assoc k props
        = Some (if isUndefined (getProp body k) then VNum 0
                else getProp body k)).
Proof.
  intros Hjson (Hnull & Hundef & Hcustomer & Hcashier & Hprice).
  eexists.
  exists (fst (dataLayer (addTransaction (transactionOf Number_ body))
                 (world st))).
  unfold transactionOf. split.
  - apply made_these.
    unfold TransactionsRoute.POST, tryCatch, bind, liftOutcome, await.
    rewrite Hjson, (destructure_value st Hnull Hundef). cbv zeta.
    rewrite Hcustomer, Hcashier, (isUndefined_false Hprice). cbn [negb orb].
    destruct (dataLayer _ (world st)) as [[[]|e] w']; reflexivity.
  - repeat split.
    intros k [<- | [<- | [<- | [<- | []]]]]; cbn [assoc String.eqb Ascii.eqb Bool.eqb];
      unfold withDefault, isUndefined;
      match goal with |- context [getProp body ?k] =>
        destruct (getProp body k) end; reflexivity.
Qed.

End AnyDataLayer.


(** A body whose name is empty is refused; one whose price is [null] and
    whose premium flag is [false] passes. *)
Example validMenuItem_edges :
  ~ validMenuItem
      (VObj [("item_type", VStr "side"); ("name", VStr "");
             ("price", VNum 4.5); ("premium", VBool false)])
  /\ validMenuItem
       (VObj [("item_type", VStr "side"); ("name", VStr "Rice");
              ("price", VNull); ("premium", VBool false)]).
Proof.
  split.
  - intros (_ & _ & _ & H & _). discriminate H.
  - repeat split; discriminate.
Qed.

Lemma PUT_updates_witness :
  MenuRoute.PUT memoryLayer
    (post (VObj [("id", VNum 7); ("price", VNum 5)])) (start menu)
  = (Returned (NextResponse_json (VObj [("price", VNum 5)]) 200),
     called (start menu)
       (updateMenuItem (VNum 7) (VObj [("price", VNum 5)]) (VArr []))
       (Returned (VObj [("price", VNum 5)]))
       [(7, VObj [("price", VNum 5)])]).
Proof.
  refine (proj2 (@PUT_updates _ memoryLayer
                   (post (VObj [("id", VNum 7); ("price", VNum 5)]))
                   (start menu) _ eq_refl _ _)
            eq_refl _ _ eq_refl); discriminate.
Defined.

Lemma POST_rejects_iff_invalid_witness :
  status (NextResponse_json
            (VObj [("error", VStr "Invalid input. All fields are required.")])
            400) = 400
  <-> ~ validMenuItem sale.
Proof.
  refine (proj1 (@POST_rejects_iff_invalid _ memoryLayer numberOf (post sale)
                   (start menu) sale eq_refl _ _) _ eq_refl); discriminate.
Defined.

Lemma GET_lists_all_witness :
  MenuRoute.GET memoryLayer (query "") (start menu)
  = (Returned (NextResponse_json (VArr [friedRice]) 200),
     called (start menu) getAllMenuItems (Returned (VArr [friedRice])) menu)
  /\ TransactionsRoute.GET silentLayer noQuery (start tt)
     = (Returned (answer500 TransactionsGET "Failed to fetch transactions"
                    TypeError),
        logged (called (start tt) getTransactions (Returned VUndefined) tt)
          [VStr "Error in transactions GET route:"; TypeError]).
Proof.
  split.
  - refine (proj1 (proj1 (@GET_lists_all _ memoryLayer (query "")
                            (start menu) (or_intror eq_refl))
                     _ _ eq_refl) _).
    discriminate.
  - exact (proj2 (proj2 (@GET_lists_all _ silentLayer noQuery (start tt)
                           (or_introl eq_refl))
                    _ _ eq_refl) eq_refl).
Defined.

(** A record that comes back [undefined] cannot be sent: both POST
    handlers then answer 500, with the TypeError logged. *)
Example undefined_record_is_500 :
  MenuRoute.POST silentLayer (post newSide) (start tt)
  = (Returned (answer500 MenuPOST "Failed to add menu item." TypeError),
     logged (called (start tt)
               (addMenuItem (VStr "side") (VStr "Chow Mein") (VNum 4.5)
                  (VBool false) (VArr []))
               (Returned VUndefined) tt)
       [VStr "Error adding menu item:"; TypeError])
  /\ response (TransactionsRoute.POST silentLayer numberOf (post sale))
       (start tt)
     = Returned (answer500 TransactionsPOST "Failed to create transaction"
                   TypeError).
Proof. split; reflexivity. Qed.

Lemma unreadable_body_is_500_witness :
  exists message line,
    handle memoryLayer numberOf TransactionsPOST (post VNull) (start sales)
    = (Returned (answer500 TransactionsPOST message TypeError),
       logged (start sales) [VStr line; TypeError]).
Proof.
  exact (@unreadable_body_is_500 _ memoryLayer numberOf TransactionsPOST
           (post VNull) (start sales) TypeError eq_refl
           (or_intror (conj eq_refl eq_refl))).
Defined.

Lemma addTransaction_fields_witness :
  exists props o,
    made (TransactionsRoute.POST memoryLayer numberOf (post sale))
      (start sales)
    = [(addTransaction (VObj props), o)]
    /\ map fst props
       = ["customerName"; "cashierName"; "salePrice"; "items"; "meals";
          "appetizers"; "drinks"]
    /\ assoc "customerName" props = Some (getProp sale "customerName")
    /\ assoc "cashierName" props = Some (getProp sale "cashierName")
    /\ assoc "salePrice" props
       = Some (VNum (numberOf (getProp sale "salePrice")))
    /\ (forall k, In k ["items"; "meals"; "appetizers"; "drinks"] ->
        assoc k props
        = Some (if isUndefined (getProp sale k) then VNum 0
                else getProp sale k)).
Proof.
  refine (@addTransaction_fields _ memoryLayer numberOf (post sale)
            (start sales) sale eq_refl _).
  repeat split; discriminate.
Defined.

End RoutesMoreSpec.

(* ================================================================= *)
(** ** Properties of [lib/inventory.ts] *)

Module InventoryLibSpec.
Import JS Handler InventoryLib.

Section AnyDatabase.
Variable World : Type.
Variable query : Statement -> World -> Outcome (list Value) * World.

(** X19. [getInventoryById] resolves to the first row the statement
    returns, and to [null] when it returns none: never to [undefined]. *)
Theorem getInventoryById_row_or_null (id : Value) (db : Db World)
    (rows : list Value) (w : World) :
  query {| text := "SELECT * FROM inventory WHERE id = $1"; params := [id] |}
    (store db) = (Returned rows, w) ->
  exists v,
    fst (getInventoryById query id db) = Returned v
    /\ v <> VUndefined
    /\ (rows = [] -> v = VNull)
    /\ (forall row rest, rows = row :: rest -> truthy row = true -> v = row).
Proof.
  intros Hquery. unfold getInventoryById, withRows. cbn [store].
  rewrite Hquery. eexists. split; [reflexivity|]. cbv zeta.
  unfold or_else. repeat split.
  - destruct rows as [|row rest]; cbn; [discriminate|].
    destruct (truthy row) eqn:Hrow; [|discriminate].
    intros ->. discriminate Hrow.
  - now intros ->.
  - intros row rest -> Hrow. cbn. now rewrite Hrow.
Qed.

(** X20. When the statement returns no row, the functions still resolve:
    [getAllInventory] to an empty list, [getInventoryById] to [null], and
    [addInventory], [updateInventory] (an id that matches nothing) and
    [deleteInventory] to [undefined]. *)
Theorem no_row_resolves (op : Operation) (db : Db World) :
  (forall s, fst (query s (store db)) = Returned []) ->
  fst (run query op db) = Returned (emptyResult op).
Proof.
  intros Hempty.
  destruct op; cbn [run emptyResult];
    unfold getAllInventory, getInventoryById, addInventory, updateInventory,
      deleteInventory, withRows;
    match goal with
    | |- context [query ?s (store db)] =>
        specialize (Hempty s); destruct (query s (store db)) as [o w]
    end;
    cbn [fst] in Hempty; subst o; reflexivity.
Qed.

(** X21. Each function sends exactly one statement. Its text is fixed by
    the function alone, whatever the arguments; its placeholders are
    [$1] to [$n] in order, one per parameter; and when the statement
    fails, the function fails with the same error. *)
Theorem one_parameterised_statement (op op' : Operation) (db db' : Db World) :
  functionOf op = functionOf op' ->
  exists s s',
    sent (snd (run query op db)) = (sent db ++ [s])%list
    /\ sent (snd (run query op' db')) = (sent db' ++ [s'])%list
    /\ text s = text s'
    /\ placeholders (text s)
       = map Z.of_nat (seq 1 (List.length (params s)))
    /\ (forall e w, query s (store db) = (Thrown e, w) ->
                    fst (run query op db) = Thrown e).
Proof.
  intros Hsame.
  destruct op, op'; try discriminate Hsame; cbn [run];
    unfold getAllInventory, getInventoryById, addInventory, updateInventory,
      deleteInventory, withRows;
    do 2 eexists;
    (split;
     [ match goal with
       | |- context [query ?s (store db)] =>
           destruct (query s (store db)) as [[?|?] ?]
       end; reflexivity
     | split;
       [ match goal with
         | |- context [query ?s (store db')] =>
             destruct (query s (store db')) as [[?|?] ?]
         end; reflexivity
       | split; [reflexivity|split; [reflexivity|]];
         intros e w Hq; cbn [store] in *; rewrite Hq; reflexivity ] ]).
Qed.

End AnyDatabase.

Lemma getInventoryById_row_or_null_witness :
  exists v,
    fst (getInventoryById memoryQuery (VNum 2)
           {| store := stock; sent := [] |}) = Returned v
    /\ v <> VUndefined
    /\ (@nil Value = [] -> v = VNull)
    /\ (forall row rest, [] = row :: rest -> truthy row = true -> v = row).
Proof.
  exact (@getInventoryById_row_or_null _ memoryQuery (VNum 2)
           {| store := stock; sent := [] |} [] stock eq_refl).
Defined.

Lemma no_row_resolves_witness :
  fst (run memoryQuery (Update (VNum 2) (VStr "Rice") (VNum 1) (VStr "lb")
                          (VBool true))
         {| store := []; sent := [] |})
  = Returned VUndefined.
Proof.
  refine (@no_row_resolves _ memoryQuery
            (Update (VNum 2) (VStr "Rice") (VNum 1) (VStr "lb") (VBool true))
            {| store := []; sent := [] |} _).
  intros s. unfold memoryQuery. cbn [store].
  destruct (params s) as [|id [|? ?]]; try reflexivity.
  now destruct (String.eqb (text s) "SELECT * FROM inventory WHERE id = $1").
Defined.

Lemma one_parameterised_statement_witness :
  exists s s',
    sent (snd (run memoryQuery (GetById (VNum 1))
                 {| store := stock; sent := [] |})) = [s]
    /\ sent (snd (run memoryQuery (GetById (VStr "1 OR 1=1"))
                    {| store := stock; sent := [] |})) = [s']
    /\ text s = text s'
    /\ placeholders (text s)
       = map Z.of_nat (seq 1 (List.length (params s)))
    /\ (forall e w, memoryQuery s stock = (Thrown e, w) ->
                    fst (run memoryQuery (GetById (VNum 1))
                           {| store := stock; sent := [] |}) = Thrown e).
Proof.
  exact (@one_parameterised_statement _ memoryQuery (GetById (VNum 1))
           (GetById (VStr "1 OR 1=1")) {| store := stock; sent := [] |}
           {| store := stock; sent := [] |} eq_refl).
Defined.

End InventoryLibSpec.

(* ================================================================= *)
(** ** Properties of the [ManageInventory] component *)

Module ManageInventorySpec.
Import JS ManageInventory.

Section AnyBrowser.
Variable Net : Type.
Variable fetch_ : Sent -> Net -> Result Reply * Net.
Variable confirm_ : string -> bool.
Variable String_ : Value -> string.
Variable typeErrorText : Value -> string.
Variable sortByName : Value -> Result Value.

Local Abbreviation fetchInventory := (fetchInventory fetch_ sortByName).
Local Abbreviation handleAddItem :=
  (handleAddItem fetch_ String_ typeErrorText sortByName).
Local Abbreviation handleUpdateItem :=
  (handleUpdateItem fetch_ String_ typeErrorText sortByName).
Local Abbreviation handleDeleteItem :=
  (handleDeleteItem fetch_ confirm_ String_ typeErrorText sortByName).

Ltac ui_eval :=
  cbv beta iota zeta delta
      [ManageInventory.handleAddItem ManageInventory.handleUpdateItem
       ManageInventory.handleDeleteItem ManageInventory.fetchInventory
       ManageInventory.onSubmit
       handleEditClick resetForm setInventory setSelectedItem setName
       setAmount setUnit setReorder setError setIsLoading set bind
       tryCatch tryFinally fetch lift closure console_error throw ret
       hooks net requests console ok json negb orb
       Hooks.inventory Hooks.selectedItem Hooks.name Hooks.amount
       Hooks.unit Hooks.reorder Hooks.error Hooks.isLoading fst snd] in *.

Ltac ui_step :=
  match goal with
  | |- context [fetch_ ?r ?n] =>
      let Hfetch := fresh "Hfetch" in
      destruct (fetch_ r n) as [[[[|] [?data|?x]]|?x] ?n] eqn:Hfetch
  | |- context [sortByName ?d] =>
      destruct (sortByName d) as [?sorted|?x]
  | |- context [confirm_ ?q] => destruct (confirm_ q)
  end.

Ltac run_ui := ui_eval; repeat (ui_step; ui_eval).

(** X22. With an empty name, amount or unit, submitting a new item only
    shows "All fields are required": nothing is sent and nothing else
    changes; an update needs a selected item as well. *)
Theorem incomplete_form_sends_nothing (env : Env Net) :
  (Hooks.name (hooks env) = "" \/ Hooks.amount (hooks env) = None
   \/ Hooks.unit (hooks env) = "" ->
   handleAddItem env = setError (Some "All fields are required") env)
  /\ (Hooks.selectedItem (hooks env) = None \/ Hooks.name (hooks env) = ""
      \/ Hooks.amount (hooks env) = None \/ Hooks.unit (hooks env) = "" ->
      handleUpdateItem env = setError (Some "All fields are required") env).
Proof.
  destruct env as [h n rq con]. cbn [hooks].
  split; intros H;
    unfold ManageInventory.handleAddItem, ManageInventory.handleUpdateItem,
      bind, closure; cbn [hooks];
    destruct (Hooks.selectedItem h), (Hooks.amount h); try reflexivity;
    repeat (destruct H as [H | H]; try discriminate H);
    try discriminate H; rewrite H; rewrite ?orb_true_r; reflexivity.
Qed.

(** X23. Declining the confirmation leaves everything as it is: no
    request, no change of state. *)
Theorem declined_delete_does_nothing (id : Z) (env : Env Net) :
  confirm_ "Are you sure you want to delete this item?" = false ->
  handleDeleteItem id env = (Ok tt, env).
Proof.
  intros Hno. unfold ManageInventory.handleDeleteItem. now rewrite Hno.
Qed.

(** X24. Cancel after Edit gives back the empty form: the fields, the
    selection and the error are cleared, the list and the loading flag are
    as before. *)
Theorem cancel_undoes_edit (item : InventoryItem.t) (env : Env Net) :
  snd (resetForm (snd (handleEditClick item env)))
  = {| hooks := cleared (hooks env); net := net env;
       requests := requests env; console := console env |}.
Proof. reflexivity. Qed.

(** X25. The three handlers never reject, and once past their guard they
    always end with the loading flag off, whatever the network did. *)
Theorem loading_flag_cleared (env : Env Net) (id : Z) :
  (fst (handleAddItem env) = Ok tt
   /\ fst (handleUpdateItem env) = Ok tt
   /\ fst (handleDeleteItem id env) = Ok tt)
  /\ (Hooks.name (hooks env) <> "" -> Hooks.amount (hooks env) <> None ->
      Hooks.unit (hooks env) <> "" ->
      Hooks.isLoading (hooks (snd (handleAddItem env))) = false
      /\ (Hooks.selectedItem (hooks env) <> None ->
          Hooks.isLoading (hooks (snd (handleUpdateItem env))) = false))
  /\ (confirm_ "Are you sure you want to delete this item?" = true ->
      Hooks.isLoading (hooks (snd (handleDeleteItem id env))) = false).
Proof.
  destruct env as [h n rq con].
  destruct h as [inv [sel|] nm [am|] un re er ld]; cbn [hooks Hooks.name
    Hooks.amount Hooks.unit Hooks.selectedItem];
    (split; [repeat split|split]).
  all: try (intros Hname Hamount Hunit;
            first [ congruence
                  | apply String.eqb_neq in Hname, Hunit; split;
                    [|intros Hsel; first [congruence|idtac]] ]).
  all: try intros Hyes.
  all: unfold ManageInventory.handleAddItem, ManageInventory.handleUpdateItem,
         ManageInventory.handleDeleteItem;
       ui_eval; rewrite ?Hname, ?Hunit, ?Hyes; ui_eval;
       try reflexivity.
  all: repeat match goal with
              | |- context [if ?b then _ else _] => destruct b
              end; try reflexivity.
  all: repeat (ui_step; ui_eval); reflexivity.
Qed.

(** X26. [fetchInventory] never rejects and sends one GET of the list.
    When the reply is ok, its JSON can be read and the list sorts, the
    sorted list replaces the old one and the loading flag is turned off,
    while an earlier error stays and nothing is logged. When the request
    fails, the reply is not ok, its JSON cannot be read or the sort throws,
    that exception is logged, the error "Failed to load inventory." is
    shown, and the list and the loading flag stay as they were. *)
Theorem fetchInventory_outcome (env : Env Net) (r : Result Reply) (n : Net) :
  fetch_ listRequest (net env) = (r, n) ->
  let loaded (h : Hooks.t) :=
    (Ok tt,
     {| hooks := h; net := n;
        requests := (requests env ++ [listRequest])%list;
        console := console env |}) in
  let failed (x : Exception) :=
    (Ok tt,
     {| hooks := withError (Some "Failed to load inventory.") (hooks env);
        net := n;
        requests := (requests env ++ [listRequest])%list;
        console :=
          (console env ++ [("Error fetching inventory:", x)])%list |}) in
  (forall reply data sorted,
      r = Ok reply -> ok reply = true -> json reply = Ok data ->
      sortByName data = Ok sorted ->
      fetchInventory env
      = loaded (withLoading false (withInventory sorted (hooks env))))
  /\ (forall x, r = Raise x -> fetchInventory env = failed x)
  /\ (forall reply,
         r = Ok reply -> ok reply = false ->
         fetchInventory env
         = failed (ErrorObject "Failed to fetch inventory"))
  /\ (forall reply x,
         r = Ok reply -> ok reply = true -> json reply = Raise x ->
         fetchInventory env = failed x)
  /\ (forall reply data x,
         r = Ok reply -> ok reply = true -> json reply = Ok data ->
         sortByName data = Raise x ->
         fetchInventory env = failed x).
Proof.
  destruct env as [h n0 rq con]. unfold listRequest. cbn [net].
  intros Hfetch. cbv zeta.
  unfold ManageInventory.fetchInventory. ui_eval. rewrite Hfetch.
  repeat split.
  - intros [okb js] data sorted -> Hok Hjson Hsort. cbn [ok json] in *.
    subst okb js. ui_eval. rewrite Hsort. reflexivity.
  - intros x ->. reflexivity.
  - intros [okb js] -> Hok. cbn [ok] in Hok. subst okb. reflexivity.
  - intros [okb js] x -> Hok Hjson. cbn [ok json] in *. subst okb js.
    reflexivity.
  - intros [okb js] data x -> Hok Hjson Hsort. cbn [ok json] in *.
    subst okb js. ui_eval. rewrite Hsort. reflexivity.
Qed.

(** X27. When the server accepts a new item, the form is emptied, no
    error is shown and the loading flag is off, whether or not the list
    could be refreshed afterwards; two requests were sent, the POST and
    the GET of the list. *)
Theorem accepted_item_resets_form (env : Env Net) (a : float)
    (reply : Reply) (n : Net) (data : Value) :
  Hooks.name (hooks env) <> "" -> Hooks.amount (hooks env) = Some a ->
  Hooks.unit (hooks env) <> "" ->
  fetch_ (postRequest (hooks env) a) (net env) = (Ok reply, n) ->
  ok reply = true -> json reply = Ok data ->
  exists list,
    hooks (snd (handleAddItem env))
    = withLoading false (cleared (withInventory list (hooks env)))
    /\ requests (snd (handleAddItem env))
       = (requests env ++ [postRequest (hooks env) a; listRequest])%list.
Proof.
  destruct env as [h n0 rq con], reply as [okb js].
  destruct h as [inv sel nm am un re er ld].
  cbn [hooks net ok json Hooks.name Hooks.amount Hooks.unit].
  intros Hname -> Hunit Hpost -> ->.
  apply String.eqb_neq in Hname, Hunit.
  unfold ManageInventory.handleAddItem, postRequest, listRequest in *.
  ui_eval. rewrite Hname, Hunit, Hpost. ui_eval.
  repeat (ui_step; ui_eval); eexists; rewrite <- app_assoc;
    (split; reflexivity).
Qed.

(** The message of [new Error(data.error || fallback)]. *)
Lemma newError_message (data : Value) (fallback : string) :
  data <> VNull -> data <> VUndefined ->
  exists message,
    newError String_ typeErrorText data fallback = ErrorObject message
    /\ (forall s, getProp data "error" = VStr s -> s <> "" -> message = s)
    /\ (truthy (getProp data "error") = false -> message = fallback).
Proof.
  intros Hnull Hundef.
  assert (Hshape :
            newError String_ typeErrorText data fallback
            = match or_else (getProp data "error") (VStr fallback) with
              | VStr s => ErrorObject s
              | v => ErrorObject (String_ v)
              end)
    by (destruct data; first [congruence | reflexivity]).
  rewrite Hshape. unfold or_else.
  destruct (truthy (getProp data "error")) eqn:Htruthy.
  - destruct (getProp data "error") eqn:Herror;
      (eexists; split; [reflexivity|]; split;
       [intros s' Hs' _; first [now injection Hs' | discriminate Hs']
       |intros H; discriminate H]).
  - exists fallback. split; [reflexivity|]. split; [|reflexivity].
    intros s Hs Hne. rewrite Hs in Htruthy. cbn in Htruthy.
    apply String.eqb_neq in Hne. rewrite Hne in Htruthy.
    discriminate Htruthy.
Qed.

(** X28. When the server refuses a new item, the form keeps what was
    typed, only the POST was sent, the loading flag is off, and the error
    shown is the server's [error] text, or "Failed to add item" when the
    reply has none. *)
Theorem refused_item_keeps_form (env : Env Net) (a : float)
    (reply : Reply) (n : Net) (data : Value) :
  Hooks.name (hooks env) <> "" -> Hooks.amount (hooks env) = Some a ->
  Hooks.unit (hooks env) <> "" ->
  fetch_ (postRequest (hooks env) a) (net env) = (Ok reply, n) ->
  ok reply = false -> json reply = Ok data ->
  data <> VNull -> data <> VUndefined ->
  exists message,
    snd (handleAddItem env)
    = {| hooks := withLoading false (withError (Some message) (hooks env));
         net := n;
         requests := requests env ++ [postRequest (hooks env) a];
         console := console env ++ [("Error adding item:",
                                     ErrorObject message)] |}
    /\ (forall s, getProp data "error" = VStr s -> s <> "" -> message = s)
    /\ (truthy (getProp data "error") = false ->
        message = "Failed to add item").
Proof.
  destruct env as [h n0 rq con], reply as [okb js].
  destruct h as [inv sel nm am un re er ld].
  cbn [hooks net ok json Hooks.name Hooks.amount Hooks.unit].
  intros Hname -> Hunit Hpost -> -> Hnull Hundef.
  apply String.eqb_neq in Hname, Hunit.
  unfold ManageInventory.handleAddItem, postRequest in *.
  ui_eval. rewrite Hname, Hunit, Hpost. ui_eval.
  pose proof (newError_message "Failed to add item" Hnull Hundef) as Hnew.
  destruct Hnew as (message & -> & Hs & Hfalsy).
  exists message. cbn [messageOf]. repeat split; assumption.
Qed.

(** X29. Edit followed by Update sends the item back as it is: the first
    request is a PUT of its id, name, amount, unit and reorder flag. *)
Theorem edited_item_is_sent_back (item : InventoryItem.t) (env : Env Net) :
  InventoryItem.name item <> "" -> InventoryItem.unit item <> "" ->
  exists rest,
    requests (snd (handleUpdateItem (snd (handleEditClick item env))))
    = (requests env ++ putRequest item :: rest)%list.
Proof.
  destruct env as [h n rq con]. intros Hname Hunit.
  apply String.eqb_neq in Hname, Hunit.
  unfold ManageInventory.handleUpdateItem, putRequest, asBody.
  ui_eval. rewrite Hname, Hunit. ui_eval.
  repeat (ui_step; ui_eval); rewrite <- ?app_assoc; eexists; reflexivity.
Qed.

End AnyBrowser.



Lemma incomplete_form_sends_nothing_witness :
  handleAddItem accepting shown cannotRead unsorted (opened mounted 0%nat)
  = setError (Some "All fields are required") (opened mounted 0%nat)
  /\ handleUpdateItem accepting shown cannotRead unsorted (opened typed 0%nat)
     = setError (Some "All fields are required") (opened typed 0%nat).
Proof.
  split.
  - apply (proj1 (@incomplete_form_sends_nothing _ accepting shown cannotRead
                    unsorted (opened mounted 0%nat))).
    now left.
  - apply (proj2 (@incomplete_form_sends_nothing _ accepting shown cannotRead
                    unsorted (opened typed 0%nat))).
    now left.
Defined.

Lemma declined_delete_does_nothing_witness :
  handleDeleteItem accepting no shown cannotRead unsorted 1
    (opened typed 0%nat)
  = (Ok tt, opened typed 0%nat).
Proof.
  exact (@declined_delete_does_nothing _ accepting no shown cannotRead
           unsorted 1 (opened typed 0%nat) eq_refl).
Defined.

Lemma fetchInventory_outcome_witness :
  ManageInventory.fetchInventory accepting unsorted (opened mounted 0%nat)
  = (Ok tt,
     {| hooks := withLoading false
                   (withInventory (VArr [asBody rice]) mounted);
        net := 1%nat; requests := [listRequest]; console := [] |})
  /\ ManageInventory.fetchInventory unreachable unsorted
       (opened mounted 0%nat)
     = (Ok tt,
        {| hooks := withError (Some "Failed to load inventory.") mounted;
           net := 1%nat; requests := [listRequest];
           console := [("Error fetching inventory:",
                        ErrorObject "Failed to fetch")] |}).
Proof.
  split.
  - exact (proj1 (@fetchInventory_outcome _ accepting unsorted
                    (opened mounted 0%nat) _ _ eq_refl)
             _ _ _ eq_refl eq_refl eq_refl eq_refl).
  - exact (proj1 (proj2 (@fetchInventory_outcome _ unreachable unsorted
                           (opened mounted 0%nat) _ _ eq_refl))
             _ eq_refl).
Defined.

Lemma loading_flag_cleared_witness :
  Hooks.isLoading
    (hooks (snd (handleDeleteItem unreachable yes shown cannotRead unsorted 1
                   (opened mounted 0%nat))))
  = false.
Proof.
  exact (proj2 (proj2 (@loading_flag_cleared _ unreachable yes shown
                         cannotRead unsorted (opened mounted 0%nat) 1))
           eq_refl).
Defined.

Lemma accepted_item_resets_form_witness :
  exists list,
    hooks (snd (handleAddItem accepting shown cannotRead unsorted
                  (opened typed 0%nat)))
    = withLoading false (cleared (withInventory list typed))
    /\ requests (snd (handleAddItem accepting shown cannotRead unsorted
                        (opened typed 0%nat)))
       = [postRequest typed 40; listRequest].
Proof.
  refine (@accepted_item_resets_form _ accepting shown cannotRead unsorted
            (opened typed 0%nat) 40
            {| ok := true; json := Ok (VArr [asBody rice]) |} 1%nat
            (VArr [asBody rice]) _ eq_refl _ eq_refl eq_refl eq_refl);
    discriminate.
Defined.

Lemma refused_item_keeps_form_witness :
  exists message,
    snd (handleAddItem refusing shown cannotRead unsorted (opened typed 0%nat))
    = {| hooks := withLoading false (withError (Some message) typed);
         net := 1%nat;
         requests := [postRequest typed 40];
         console := [("Error adding item:", ErrorObject message)] |}
    /\ (forall s,
          getProp (VObj [("error", VStr "Item already exists")]) "error"
          = VStr s -> s <> "" -> message = s)
    /\ (truthy (getProp (VObj [("error", VStr "Item already exists")])
                  "error") = false ->
        message = "Failed to add item").
Proof.
  refine (@refused_item_keeps_form _ refusing shown cannotRead unsorted
            (opened typed 0%nat) 40
            {| ok := false;
               json := Ok (VObj [("error", VStr "Item already exists")]) |}
            1%nat (VObj [("error", VStr "Item already exists")])
            _ eq_refl _ eq_refl eq_refl eq_refl _ _);
    discriminate.
Defined.

Lemma edited_item_is_sent_back_witness :
  exists rest,
    requests (snd (handleUpdateItem accepting shown cannotRead unsorted
                     (snd (handleEditClick rice (opened mounted 0%nat)))))
    = putRequest rice :: rest.
Proof.
  refine (@edited_item_is_sent_back _ accepting shown cannotRead unsorted
            rice (opened mounted 0%nat) _ _); discriminate.
Defined.

End ManageInventorySpec.
